(** * PollReader: a shallow embedding of [PollReader.py]

    The program reads a CSV file of polling records into a dictionary of
    six columns and answers three queries over it.  This file embeds the
    four functions [build_data_dict], [highest_polling_candidate],
    [likely_voter_polling_average] and [polling_history_change] and proves
    the properties of them that the specification states.

    Modelling conventions.
    - A Python [str] is a [string]; a character is a code point below 256.
    - A Python [int] is a [Z].
    - The four functions do arithmetic only through [sum], [max], [+], [-],
      [*], [/], [>] and the format [:.1f], so they are written over a
      record [Number] of these operations.  The program, whose results
      come from [float()], runs them at the instance [binary64]: IEEE 754
      double precision, with rounding, signed zeros, infinities and NaN,
      and [sum] adding from left to right, as CPython does up to version
      3.11 (later versions compensate the rounding errors of a sum of
      floats).  The instance [exact] runs the same code on exact
      rationals.
    - An exception is a constructor of [exn]; a computation that may raise
      returns a [result].
    - The object [self] is the record [PollReader]; the four functions,
      which the source defines at module level with the object as their
      argument [self], are computations of the monad [M] that threads it. *)

From Stdlib Require Import List ZArith QArith Qabs Qround Bool Ascii String.
From Stdlib Require Import Lia Lqa Permutation DecimalString DecimalN Floats.
From Stdlib Require Uint63.
Import ListNotations.

#[local] Set Warnings "-inexact-float".

Local Open Scope Z_scope.

(** ** Exceptions and results *)

(** [ValueError], [IndexError] and [ZeroDivisionError] are the built-in
    exceptions that the code can raise.  [ParseError], [EmptyDataError] and
    [InsufficientDataError] are the names of the specification's error
    taxonomy; no statement of the program raises them. *)
Inductive exn : Type :=
| ValueError
| IndexError
| ZeroDivisionError
| ParseError
| EmptyDataError
| InsufficientDataError.

Inductive result (A : Type) : Type :=
| Ok (a : A)
| Raise (e : exn).

Arguments Ok {A} a.
Arguments Raise {A} e.

Definition rbind {A B : Type} (r : result A) (k : A -> result B) : result B :=
  match r with
  | Ok a => k a
  | Raise e => Raise e
  end.

(** A list comprehension whose element expression may raise. *)
Fixpoint rmap {A B : Type} (f : A -> result B) (l : list A) : result (list B) :=
  match l with
  | [] => Ok []
  | x :: xs => rbind (f x) (fun y => rbind (rmap f xs) (fun ys => Ok (y :: ys)))
  end.

(** ** Python built-ins on lists *)

(** [len(l)] *)
Definition len {A : Type} (l : list A) : Z := Z.of_nat (List.length l).

(** [l[i]], with Python's negative indices. *)
Definition py_index {A : Type} (l : list A) (i : Z) : result A :=
  let j := if i <? 0 then i + len l else i in
  if (j <? 0) || (len l <=? j) then Raise IndexError
  else match nth_error l (Z.to_nat j) with
       | Some a => Ok a
       | None => Raise IndexError
       end.

(** The bound of a slice, clamped into [0 .. len l] as Python does. *)
Definition slice_bound (n i : Z) : Z :=
  if i <? 0 then Z.max (i + n) 0 else Z.min i n.

(** [l[slice(start, stop)]] *)
Definition py_slice {A : Type} (l : list A) (s : Z * Z) : list A :=
  let lo := slice_bound (len l) (fst s) in
  let hi := slice_bound (len l) (snd s) in
  firstn (Z.to_nat (hi - lo)) (skipn (Z.to_nat lo) l).

(** [enumerate(l)] *)
Fixpoint enumerate_from {A : Type} (i : Z) (l : list A) : list (Z * A) :=
  match l with
  | [] => []
  | x :: xs => (i, x) :: enumerate_from (i + 1) xs
  end.

Definition enumerate {A : Type} (l : list A) : list (Z * A) := enumerate_from 0 l.

(** ** Numbers *)

(** The arithmetic that the four functions use. *)
Record Number : Type := mkNumber {
  num : Type;
  of_int : Z -> num;               (* an [int] operand, converted *)
  plus : num -> num -> num;        (* [x + y] *)
  minus : num -> num -> num;       (* [x - y] *)
  times : num -> num -> num;       (* [x * y] *)
  divide : num -> num -> num;      (* [x / y], [y] not zero *)
  greater : num -> num -> bool;    (* [x > y] *)
  fmt_1f : num -> string           (* [f"{x:.1f}"] *)
}.

Arguments of_int {n} _.
Arguments plus {n} _ _.
Arguments minus {n} _ _.
Arguments times {n} _ _.
Arguments divide {n} _ _.
Arguments greater {n} _ _.
Arguments fmt_1f {n} _.

(** [sum(l)]: the additions run left to right from the integer 0. *)
Definition py_sum {N : Number} (l : list (num N)) : num N :=
  fold_left plus l (of_int 0).

(** [x / n] for an integer [n]. *)
Definition py_div {N : Number} (x : num N) (n : Z) : result (num N) :=
  if n =? 0 then Raise ZeroDivisionError else Ok (divide x (of_int n)).

(** [max(l)]: the first element is the candidate, replaced by each later
    element that is greater than it. *)
Definition py_max {N : Number} (l : list (num N)) : result (num N) :=
  match l with
  | [] => Raise ValueError
  | x :: xs => Ok (fold_left (fun m y => if greater y m then y else m) xs x)
  end.

(** ** The object *)

(** [self.data_dict]: a dictionary with six fixed keys, each holding a list. *)
Record DataDict (N : Number) : Type := mkDataDict {
  month : list string;          (* 'month' *)
  date : list Z;                (* 'date' *)
  sample : list Z;              (* 'sample' *)
  sample_type : list string;    (* 'sample type' *)
  Harris_result : list (num N); (* 'Harris result' *)
  Trump_result : list (num N)   (* 'Trump result' *)
}.

Arguments mkDataDict {N} _ _ _ _ _ _.
Arguments month {N} _.
Arguments date {N} _.
Arguments sample {N} _.
Arguments sample_type {N} _.
Arguments Harris_result {N} _.
Arguments Trump_result {N} _.

(** [self]: the lines read from the file and the dictionary. *)
Record PollReader (N : Number) : Type := mkPollReader {
  raw_data : list string;
  data_dict : DataDict N
}.

Arguments mkPollReader {N} _ _.
Arguments raw_data {N} _.
Arguments data_dict {N} _.

Definition empty_dict {N : Number} : DataDict N := mkDataDict [] [] [] [] [] [].

(** The object as [__init__] leaves it, given the lines of the file. *)
Definition init {N : Number} (lines : list string) : PollReader N :=
  mkPollReader lines empty_dict.

(** ** The monad of methods: state [self], result or exception *)

Definition M (N : Number) (A : Type) : Type := PollReader N -> PollReader N * result A.

Definition ret {N : Number} {A : Type} (a : A) : M N A := fun s => (s, Ok a).

Definition bind {N : Number} {A B : Type} (m : M N A) (k : A -> M N B) : M N B :=
  fun s => match m s with
           | (s', Ok a) => k a s'
           | (s', Raise e) => (s', Raise e)
           end.

Definition lift {N : Number} {A : Type} (r : result A) : M N A := fun s => (s, r).

(** [self.data_dict[key]] for reading. *)
Definition get_col {N : Number} {A : Type} (col : DataDict N -> list A) : M N (list A) :=
  fun s => (s, Ok (col (data_dict s))).

(** [self.raw_data] *)
Definition get_raw {N : Number} : M N (list string) := fun s => (s, Ok (raw_data s)).

(** [self.data_dict[key].append(v)], one definition per key. *)
Definition set_dict {N : Number} (f : DataDict N -> DataDict N) : M N unit :=
  fun s => (mkPollReader (raw_data s) (f (data_dict s)), Ok tt).

Definition append_month {N : Number} (v : string) : M N unit :=
  set_dict (fun d => mkDataDict (month d ++ [v]) (date d) (sample d)
                                (sample_type d) (Harris_result d) (Trump_result d)).
Definition append_date {N : Number} (v : Z) : M N unit :=
  set_dict (fun d => mkDataDict (month d) (date d ++ [v]) (sample d)
                                (sample_type d) (Harris_result d) (Trump_result d)).
Definition append_sample {N : Number} (v : Z) : M N unit :=
  set_dict (fun d => mkDataDict (month d) (date d) (sample d ++ [v])
                                (sample_type d) (Harris_result d) (Trump_result d)).
Definition append_sample_type {N : Number} (v : string) : M N unit :=
  set_dict (fun d => mkDataDict (month d) (date d) (sample d)
                                (sample_type d ++ [v]) (Harris_result d) (Trump_result d)).
Definition append_Harris {N : Number} (v : num N) : M N unit :=
  set_dict (fun d => mkDataDict (month d) (date d) (sample d)
                                (sample_type d) (Harris_result d ++ [v]) (Trump_result d)).
Definition append_Trump {N : Number} (v : num N) : M N unit :=
  set_dict (fun d => mkDataDict (month d) (date d) (sample d)
                                (sample_type d) (Harris_result d) (Trump_result d ++ [v])).

Declare Scope py_scope.
Delimit Scope py_scope with py.
Notation "x <- m ;; k" := (bind m (fun x => k))
  (at level 61, m at next level, right associativity) : py_scope.
Notation "m ;; k" := (bind m (fun _ => k))
  (at level 61, right associativity) : py_scope.
Local Open Scope py_scope.

(** ** highest_polling_candidate *)

Definition highest_polling_candidate {N : Number} : M N string :=
  h <- get_col Harris_result ;;
  h_max <- lift (py_max h) ;;
  t <- get_col Trump_result ;;
  t_max <- lift (py_max t) ;;
  if greater h_max t_max then
    ret ("Harris " ++ fmt_1f (times h_max (of_int 100)) ++ "%")%string
  else if greater t_max h_max then
    ret ("Trump " ++ fmt_1f (times t_max (of_int 100)) ++ "%")%string
  else
    ret ("EVEN " ++ fmt_1f (times h_max (of_int 100)) ++ "%")%string.

(** ** likely_voter_polling_average *)

(** [[i for i, st in enumerate(col) if st == 'LV']] *)
Definition lv_indices (col : list string) : list Z :=
  map fst (filter (fun p => String.eqb (snd p) "LV") (enumerate col)).

Definition likely_voter_polling_average {N : Number} : M N (num N * num N) :=
  st_col <- get_col sample_type ;;
  let lv_idx := lv_indices st_col in
  h <- get_col Harris_result ;;
  h_vals <- lift (rmap (py_index h) lv_idx) ;;
  t <- get_col Trump_result ;;
  t_vals <- lift (rmap (py_index t) lv_idx) ;;
  h_avg <- lift (match h_vals with
                 | [] => Ok (of_int 0)
                 | _ => py_div (py_sum h_vals) (len h_vals)
                 end) ;;
  t_avg <- lift (match t_vals with
                 | [] => Ok (of_int 0)
                 | _ => py_div (py_sum t_vals) (len t_vals)
                 end) ;;
  ret (h_avg, t_avg).

(** ** polling_history_change *)

(** The two [slice] objects chosen from the row count. *)
Definition history_slices (n : Z) : (Z * Z) * (Z * Z) :=
  if 60 <=? n then
    ((0, 30), (n - 30, n))
  else
    let mid := n / 2 in
    ((0, mid), (n - mid, n)).

Definition polling_history_change {N : Number} : M N (num N * num N) :=
  h <- get_col Harris_result ;;
  t <- get_col Trump_result ;;
  let n := len h in
  let latest_slice := fst (history_slices n) in
  let earliest_slice := snd (history_slices n) in
  h_latest <- lift (py_div (py_sum (py_slice h latest_slice)) (len (py_slice h latest_slice))) ;;
  t_latest <- lift (py_div (py_sum (py_slice t latest_slice)) (len (py_slice t latest_slice))) ;;
  h_earliest <- lift (py_div (py_sum (py_slice h earliest_slice)) (len (py_slice h earliest_slice))) ;;
  t_earliest <- lift (py_div (py_sum (py_slice t earliest_slice)) (len (py_slice t earliest_slice))) ;;
  ret (minus h_latest h_earliest, minus t_latest t_earliest).

(** ** Python built-ins on strings *)

(** [c.isspace()] for a code point below 256. *)
Definition is_space (c : ascii) : bool :=
  let n := N_of_ascii c in
  ((9 <=? n) && (n <=? 13) || (28 <=? n) && (n <=? 32) || (n =? 133) || (n =? 160))%N.

Fixpoint lstrip (s : string) : string :=
  match s with
  | EmptyString => EmptyString
  | String c s' => if is_space c then lstrip s' else s
  end.

Fixpoint rstrip (s : string) : string :=
  match s with
  | EmptyString => EmptyString
  | String c s' =>
      match rstrip s' with
      | EmptyString => if is_space c then EmptyString else String c EmptyString
      | r => String c r
      end
  end.

(** [s.strip()] *)
Definition strip (s : string) : string := lstrip (rstrip s).

(** The fields of [s] between the characters that satisfy [sep]; there is
    always at least one field. *)
Fixpoint split_where (sep : ascii -> bool) (s : string) : list string :=
  match s with
  | EmptyString => [EmptyString]
  | String c s' =>
      if sep c then EmptyString :: split_where sep s'
      else match split_where sep s' with
           | [] => [String c EmptyString]
           | w :: ws => String c w :: ws
           end
  end.

(** [s.split(',')] *)
Definition split_comma (s : string) : list string :=
  split_where (fun c => Ascii.eqb c ",") s.

Definition nonempty (s : string) : bool :=
  match s with
  | EmptyString => false
  | String _ _ => true
  end.

(** [s.split()]: the fields between white-space characters, empty ones
    dropped. *)
Definition split_ws (s : string) : list string :=
  filter nonempty (split_where is_space s).

(** ** build_data_dict *)

Section Loader.

Context {N : Number}.

(** The conversions [int(s)] and [float(s)] of a string: [None] stands
    for the [ValueError] of a string that is not a literal. *)
Variable py_int : string -> option Z.
Variable py_float : string -> option (num N).

Definition int (s : string) : result Z :=
  match py_int s with
  | Some z => Ok z
  | None => Raise ValueError
  end.

Definition float (s : string) : result (num N) :=
  match py_float s with
  | Some q => Ok q
  | None => Raise ValueError
  end.

(** The body of the loop for one stripped, non-empty line. *)
Definition process_line (line : string) : M N unit :=
  let parts := map strip (split_comma line) in
  month_ <- lift (py_index parts 0) ;;
  p1 <- lift (py_index parts 1) ;;
  date_ <- lift (int p1) ;;
  sample_field <- lift (py_index parts 2) ;;
  let sample_bits := split_ws sample_field in
  b0 <- lift (py_index sample_bits 0) ;;
  sample_size <- lift (int b0) ;;
  sample_type_ <- lift (py_index sample_bits (-1)) ;;
  p3 <- lift (py_index parts 3) ;;
  harris <- lift (float p3) ;;
  p4 <- lift (py_index parts 4) ;;
  trump <- lift (float p4) ;;
  append_month month_ ;;
  append_date date_ ;;
  append_sample sample_size ;;
  append_sample_type sample_type_ ;;
  append_Harris harris ;;
  append_Trump trump.

(** The [for] loop over the lines after the header. *)
Fixpoint build_loop (lines : list string) : M N unit :=
  match lines with
  | [] => ret tt
  | line :: rest =>
      let line := strip line in
      if negb (nonempty line) then build_loop rest
      else process_line line ;; build_loop rest
  end.

Definition build_data_dict : M N unit :=
  raw <- get_raw ;;
  build_loop (tl raw).

End Loader.

(** ** The instance of exact rationals *)

Definition Qltb (x y : Q) : bool := negb (Qle_bool y x).

(** The nearest integer, ties to the even one. *)
Definition round_half_even (x : Q) : Z :=
  let f := Qfloor x in
  match Qcompare (x - inject_Z f) (1 # 2) with
  | Lt => f
  | Gt => f + 1
  | Eq => if Z.even f then f else f + 1
  end.

Definition digits_of (z : Z) : string := NilZero.string_of_uint (N.to_uint (Z.to_N z)).

(** A magnitude written with one decimal place: the integer part, a point
    and one digit. *)
Definition fmt_tenths (x : Q) : string :=
  let t := round_half_even (x * 10) in
  (digits_of (t / 10) ++ "." ++ digits_of (t mod 10))%string.

Definition exact_fmt_1f (x : Q) : string :=
  ((if Qltb x 0 then "-" else "") ++ fmt_tenths (Qabs x))%string.

Definition exact : Number :=
  mkNumber Q inject_Z Qplus Qminus Qmult Qdiv (fun x y => Qltb y x) exact_fmt_1f.

(** ** The instance of binary64 floats *)

(** [float(z)] for an integer below 2^63 in magnitude. *)
Definition float_of_int (z : Z) : PrimFloat.float :=
  if z <? 0 then PrimFloat.opp (PrimFloat.of_uint63 (Uint63.of_Z (- z)))
  else PrimFloat.of_uint63 (Uint63.of_Z z).

(** The magnitude [m * 2^e] of a finite float. *)
Definition float_magnitude (m : positive) (e : Z) : Q :=
  if e <? 0 then Qmake (Zpos m) (Pos.pow 2 (Z.to_pos (- e)))
  else inject_Z (Zpos m * 2 ^ e).

(** [f"{x:.1f}"] for a float: the decimal expansion of the value that the
    float holds, rounded to one place. *)
Definition float_fmt_1f (x : PrimFloat.float) : string :=
  match Prim2SF x with
  | S754_nan => "nan"
  | S754_infinity s => if s then "-inf" else "inf"
  | S754_zero s => if s then "-0.0" else "0.0"
  | S754_finite s m e =>
      ((if s then "-" else "") ++ fmt_tenths (float_magnitude m e))%string
  end.

Definition binary64 : Number :=
  mkNumber PrimFloat.float float_of_int PrimFloat.add PrimFloat.sub PrimFloat.mul
           PrimFloat.div (fun x y => PrimFloat.ltb y x) float_fmt_1f.

(** ** Literals

    An instance of the two conversions for worked examples.  [dec_int]
    accepts an optional sign and digits.  [dec_float] accepts an optional
    sign and then digits with an optional point, or one of the words
    [inf], [infinity] and [nan] in any case; the decimal literal is
    divided out in binary64, which gives the float nearest to it, as
    [float()] does, when it has at most fifteen digits. *)

Definition digit_val (c : ascii) : option Z :=
  let n := N_of_ascii c in
  if ((48 <=? n) && (n <=? 57))%N then Some (Z.of_N (n - 48)) else None.

Fixpoint digits_val (acc : Z) (s : string) : option Z :=
  match s with
  | EmptyString => Some acc
  | String c s' =>
      match digit_val c with
      | Some d => digits_val (10 * acc + d) s'
      | None => None
      end
  end.

Definition signed {A : Type} (body : string -> option A) (neg : A -> A) (s : string) : option A :=
  match s with
  | String "-" s' => option_map neg (body s')
  | String "+" s' => body s'
  | _ => body s
  end.

Definition unsigned_int (s : string) : option Z :=
  if nonempty s then digits_val 0 s else None.

Definition dec_int (s : string) : option Z :=
  signed unsigned_int Z.opp (strip s).

Definition lower (c : ascii) : ascii :=
  let n := N_of_ascii c in
  if ((65 <=? n) && (n <=? 90))%N then ascii_of_N (n + 32) else c.

Fixpoint lower_string (s : string) : string :=
  match s with
  | EmptyString => EmptyString
  | String c s' => String (lower c) (lower_string s')
  end.

Definition decimal_float (s : string) : option PrimFloat.float :=
  match split_where (fun c => Ascii.eqb c ".") s with
  | [a] => option_map float_of_int (unsigned_int a)
  | [a; b] =>
      if nonempty a || nonempty b then
        match digits_val 0 a, digits_val 0 b with
        | Some x, Some y =>
            let scale := 10 ^ Z.of_nat (String.length b) in
            Some (PrimFloat.div (float_of_int (x * scale + y)) (float_of_int scale))
        | _, _ => None
        end
      else None
  | _ => None
  end.

Definition unsigned_float (s : string) : option PrimFloat.float :=
  let w := lower_string s in
  if String.eqb w "nan" then Some PrimFloat.nan
  else if String.eqb w "inf" || String.eqb w "infinity" then Some PrimFloat.infinity
  else decimal_float s.

Definition dec_float (s : string) : option (num binary64) :=
  signed unsigned_float PrimFloat.opp (strip s).

(** ** Vocabulary of the specification *)

(** The number of rows of a table, read off the Harris column as
    [polling_history_change] does. *)
Definition row_count {N : Number} (d : DataDict N) : nat := List.length (Harris_result d).

(** The six columns have one length. *)
Definition aligned {N : Number} (d : DataDict N) : Prop :=
  List.length (month d) = row_count d /\
  List.length (date d) = row_count d /\
  List.length (sample d) = row_count d /\
  List.length (sample_type d) = row_count d /\
  List.length (Trump_result d) = row_count d.

(** The sum of the first [k] values of [l], taken in their order: nothing
    for no value, and the sum of the values before the last plus the
    last. *)
Fixpoint running_sum {N : Number} (l : list (num N)) (k : nat) : num N :=
  match k with
  | O => of_int 0
  | S k' => plus (running_sum l k') (nth k' l (of_int 0))
  end.

(** The arithmetic mean of the values of [l]: their sum, divided by their
    number. *)
Definition mean_of {N : Number} (l : list (num N)) : num N :=
  divide (running_sum l (List.length l)) (of_int (Z.of_nat (List.length l))).

(** The mean, with the fallback 0 for no value. *)
Definition average_of {N : Number} (l : list (num N)) : num N :=
  match l with
  | [] => of_int 0
  | _ => mean_of l
  end.

(** The rows with indices [first], [first + 1], ..., [first + count - 1]. *)
Definition rows_at {N : Number} (l : list (num N)) (first count : nat) : list (num N) :=
  map (fun i => nth i l (of_int 0)) (seq first count).

(** The size of both windows of the history change for [n] rows. *)
Definition window_size (n : nat) : nat :=
  if (60 <=? n)%nat then 30%nat else (n / 2)%nat.

(** The values of column [col] on the rows whose sample type is "LV". *)
Definition lv_values {N : Number} (d : DataDict N) (col : list (num N)) : list (num N) :=
  map snd (filter (fun p => String.eqb (fst p) "LV") (combine (sample_type d) col)).

(** One record of the table. *)
Record Row (N : Number) : Type := mkRow {
  r_month : string;
  r_date : Z;
  r_sample : Z;
  r_sample_type : string;
  r_harris : num N;
  r_trump : num N
}.

Arguments mkRow {N} _ _ _ _ _ _.
Arguments r_month {N} _.
Arguments r_date {N} _.
Arguments r_sample {N} _.
Arguments r_sample_type {N} _.
Arguments r_harris {N} _.
Arguments r_trump {N} _.

(** The table whose rows are [rs], in this order. *)
Definition table_of_rows {N : Number} (rs : list (Row N)) : DataDict N :=
  mkDataDict (map r_month rs) (map r_date rs) (map r_sample rs)
             (map r_sample_type rs) (map r_harris rs) (map r_trump rs).

(** The rows of a table, in order. *)
Definition rows_of {N : Number} (d : DataDict N) : list (Row N) :=
  map (fun i => mkRow (nth i (month d) ""%string) (nth i (date d) 0)
                      (nth i (sample d) 0) (nth i (sample_type d) ""%string)
                      (nth i (Harris_result d) (of_int 0)) (nth i (Trump_result d) (of_int 0)))
      (seq 0 (row_count d)).

(** The three queries, and a sequence of them run on one object. *)
Inductive query : Type :=
| Highest
| LikelyVoter
| HistoryChange.

Definition run_query {N : Number} (q : query) (s : PollReader N) : PollReader N :=
  match q with
  | Highest => fst (highest_polling_candidate s)
  | LikelyVoter => fst (likely_voter_polling_average s)
  | HistoryChange => fst (polling_history_change s)
  end.

Definition run_queries {N : Number} (qs : list query) (s : PollReader N) : PollReader N :=
  fold_left (fun s q => run_query q s) qs s.

(** *** Vocabulary of binary64 results *)

(** The float is not a NaN. *)
Definition not_nan (x : PrimFloat.float) : Prop := PrimFloat.is_nan x = false.

(** The float is not the negative zero. *)
Definition not_neg_zero (x : PrimFloat.float) : Prop := Prim2SF x <> S754_zero true.

(** [m] is a maximum of [l]: an element that no element exceeds. *)
Definition is_max (m : PrimFloat.float) (l : list PrimFloat.float) : Prop :=
  In m l /\ Forall (fun x => PrimFloat.leb x m = true) l.

(** [s] is the decimal numeral of [z], without leading zeros. *)
Definition numeral (z : Z) (s : string) : Prop :=
  exists u : Decimal.uint,
    NilZero.uint_of_string s = Some u /\
    Decimal.unorm u = u /\
    Z.of_N (N.of_uint u) = z.

(** [t] tenths is the magnitude [x] rounded to one decimal place: the
    nearest number of tenths, the even one of two that are equally near. *)
Definition nearest_tenths (x : Q) (t : Z) : Prop :=
  0 <= t /\
  (Qabs (x * 10 - inject_Z t) <= 1 # 2)%Q /\
  ((Qabs (x * 10 - inject_Z t) == 1 # 2)%Q -> Z.even t = true).

(** [s] writes the magnitude [x] with one decimal place. *)
Definition writes_tenths (x : Q) (s : string) : Prop :=
  exists (t : Z) (ip : string) (d : ascii),
    nearest_tenths x t /\
    numeral (t / 10) ip /\
    numeral (t mod 10) (String d EmptyString) /\
    s = (ip ++ "." ++ String d EmptyString)%string.

(** [s] is [x] as the format [:.1f] writes a float: a finite float by the
    sign and the magnitude it holds with one decimal place, the others by
    name. *)
Definition writes_1f (x : PrimFloat.float) (s : string) : Prop :=
  match Prim2SF x with
  | S754_nan => s = "nan"%string
  | S754_infinity sg => s = (if sg then "-inf" else "inf")%string
  | S754_zero sg => s = (if sg then "-0.0" else "0.0")%string
  | S754_finite sg m e =>
      exists body : string,
        writes_tenths (float_magnitude m e) body /\
        s = ((if sg then "-" else "") ++ body)%string
  end.

(** *** Vocabulary of the loader *)

(** The data lines of a file: the lines after the header, stripped, the
    blank ones dropped. *)
Definition data_lines (raw : list string) : list string :=
  filter nonempty (map strip (tl raw)).

(** The comma-separated fields of a line, each stripped. *)
Definition fields (line : string) : list string := map strip (split_comma line).

Definition field (i : nat) (line : string) : string := nth i (fields line) ""%string.

(** The white-space separated tokens of the sample field. *)
Definition sample_tokens (line : string) : list string := split_ws (field 2 line).

Definition month_of (line : string) : string := field 0 line.

Definition sample_type_of (line : string) : string := last (sample_tokens line) ""%string.

(** Appending one row to the six columns. *)
Definition push_row {N : Number} (r : Row N) (d : DataDict N) : DataDict N :=
  mkDataDict (month d ++ [r_month r]) (date d ++ [r_date r])
             (sample d ++ [r_sample r]) (sample_type d ++ [r_sample_type r])
             (Harris_result d ++ [r_harris r]) (Trump_result d ++ [r_trump r]).

Definition push_rows {N : Number} (rs : list (Row N)) (d : DataDict N) : DataDict N :=
  fold_left (fun d r => push_row r d) rs d.

Section LoaderVocabulary.

Context {N : Number}.
Variable py_int : string -> option Z.
Variable py_float : string -> option (num N).

Definition date_of (line : string) : option Z := py_int (field 1 line).

Definition sample_size_of (line : string) : option Z :=
  py_int (hd ""%string (sample_tokens line)).

Definition harris_of (line : string) : option (num N) := py_float (field 3 line).

Definition trump_of (line : string) : option (num N) := py_float (field 4 line).

(** A data line on which the loop body raises: fewer than five fields, a
    sample field without a token, or a numeric field that does not
    convert. *)
Definition malformed (line : string) : Prop :=
  (List.length (fields line) < 5)%nat \/
  date_of line = None \/
  sample_tokens line = [] \/
  sample_size_of line = None \/
  harris_of line = None \/
  trump_of line = None.

(** The columns of [d] hold, row by row and in order, the values of the
    lines [lines]. *)
Definition holds_lines (d : DataDict N) (lines : list string) : Prop :=
  month d = map month_of lines /\
  map Some (date d) = map date_of lines /\
  map Some (sample d) = map sample_size_of lines /\
  sample_type d = map sample_type_of lines /\
  map Some (Harris_result d) = map harris_of lines /\
  map Some (Trump_result d) = map trump_of lines.

(** The values that the loop body computes from a line before it
    appends them, or the exception it raises. *)
Definition parse_line (line : string) : result (Row N) :=
  let parts := fields line in
  rbind (py_index parts 0) (fun month_ =>
  rbind (py_index parts 1) (fun p1 =>
  rbind (int py_int p1) (fun date_ =>
  rbind (py_index parts 2) (fun sample_field =>
  let sample_bits := split_ws sample_field in
  rbind (py_index sample_bits 0) (fun b0 =>
  rbind (int py_int b0) (fun sample_size =>
  rbind (py_index sample_bits (-1)) (fun sample_type_ =>
  rbind (py_index parts 3) (fun p3 =>
  rbind (float py_float p3) (fun harris =>
  rbind (py_index parts 4) (fun p4 =>
  rbind (float py_float p4) (fun trump =>
  Ok (mkRow month_ date_ sample_size sample_type_ harris trump)))))))))))).

(** The rows of the lines up to the first line that raises, and the
    outcome of the loop. *)
Fixpoint load_rows (lines : list string) : list (Row N) * result unit :=
  match lines with
  | [] => ([], Ok tt)
  | line :: rest =>
      match parse_line line with
      | Ok r => let (rs, o) := load_rows rest in (r :: rs, o)
      | Raise e => ([], Raise e)
      end
  end.

End LoaderVocabulary.

(** ** Further vocabulary *)

(** No character of [s] satisfies [p]. *)
Definition no_char (p : ascii -> bool) (s : string) : Prop :=
  forall c : ascii, In c (list_ascii_of_string s) -> p c = false.

Definition is_comma (c : ascii) : bool := Ascii.eqb c ",".

(** The row is one of likely voters. *)
Definition is_lv_row {N : Number} (r : Row N) : bool := String.eqb (r_sample_type r) "LV".

(** The table of the rows of [d1] followed by the rows of [d2]. *)
Definition dict_app {N : Number} (d1 d2 : DataDict N) : DataDict N :=
  mkDataDict (month d1 ++ month d2) (date d1 ++ date d2) (sample d1 ++ sample d2)
             (sample_type d1 ++ sample_type d2)
             (Harris_result d1 ++ Harris_result d2) (Trump_result d1 ++ Trump_result d2).

(** ** Worked inputs *)

Definition nl : string := String (ascii_of_nat 10) EmptyString.

Definition header : string := ("month,date,sample,Harris result,Trump result" ++ nl)%string.

(** A file of three data lines and a blank line. *)
Definition small_file : list string :=
  [header;
   ("October, 28 ,1880 LV,0.49,0.46" ++ nl)%string;
   ("   " ++ nl)%string;
   ("October,27,2027 A,0.57,0.5" ++ nl)%string;
   "September,1,100 online RV,0.45,0.47"%string].

(** The object after loading [small_file]. *)
Definition small_loaded : PollReader binary64 :=
  mkPollReader small_file
    (mkDataDict (N := binary64)
                ["October"; "October"; "September"]%string [28; 27; 1] [1880; 2027; 100]
                ["LV"; "A"; "RV"]%string [0.49; 0.57; 0.45]%float [0.46; 0.5; 0.47]%float).

(** A file whose second data line has a single field. *)
Definition file_with_short_line : list string :=
  [header;
   ("October,28,1880 LV,0.49,0.46" ++ nl)%string;
   ("garbage" ++ nl)%string;
   ("October,27,2027 A,0.57,0.5" ++ nl)%string].

(** A file whose data line has six fields. *)
Definition file_with_long_line : list string :=
  [header;
   ("October,28,1880 LV,0.49,0.46,extra" ++ nl)%string].

(** A file whose data line has a date that is not a number. *)
Definition file_with_bad_date : list string :=
  [header;
   ("October,28th,1880 LV,0.49,0.46" ++ nl)%string].

(** A file with a Harris result that is not a number. *)
Definition file_with_nan : list string :=
  [header;
   ("October,28,1880 LV,nan,0.4" ++ nl)%string;
   ("October,27,2027 A,0.5,0.4" ++ nl)%string].

(** A file with a negative zero, and the same file with its two data lines
    exchanged. *)
Definition file_with_zeros : list string :=
  [header;
   ("October,28,1880 LV,-0.0,0.0" ++ nl)%string;
   ("October,27,2027 A,0.0,0.0" ++ nl)%string].

Definition file_with_zeros_exchanged : list string :=
  [header;
   ("October,27,2027 A,0.0,0.0" ++ nl)%string;
   ("October,28,1880 LV,-0.0,0.0" ++ nl)%string].

(** An object holding a table of four rows. *)
Definition four_rows : PollReader binary64 :=
  mkPollReader []
    (mkDataDict (N := binary64)
                ["Oct"; "Oct"; "Sep"; "Sep"]%string [28; 27; 2; 1] [1880; 2027; 100; 900]
                ["LV"; "A"; "lv"; "LV"]%string
                [0.49; 0.57; 0.45; 0.47]%float [0.46; 0.5; 0.47; 0.44]%float).

(** The same rows in another order. *)
Definition four_rows_permuted : list (Row binary64) :=
  [mkRow (N := binary64) "Sep" 1 900 "LV" 0.47%float 0.44%float;
   mkRow (N := binary64) "Oct" 28 1880 "LV" 0.49%float 0.46%float;
   mkRow (N := binary64) "Sep" 2 100 "lv" 0.45%float 0.47%float;
   mkRow (N := binary64) "Oct" 27 2027 "A" 0.57%float 0.5%float].

(** The same four rows on an object whose file is [file_with_short_line]. *)
Definition four_rows_and_short_file : PollReader binary64 :=
  mkPollReader file_with_short_line (data_dict four_rows).

(** An object holding a table of one row. *)
Definition one_row : PollReader binary64 :=
  mkPollReader []
    (mkDataDict (N := binary64) ["Oct"]%string [28] [1880] ["LV"]%string
                [0.49]%float [0.46]%float).

(** An object holding a table of four rows with constant results, in exact
    rationals. *)
Definition constant_rows : PollReader exact :=
  mkPollReader []
    (mkDataDict (N := exact)
                ["Oct"; "Oct"; "Sep"; "Sep"]%string [28; 27; 2; 1] [1880; 2027; 100; 900]
                ["LV"; "A"; "RV"; "LV"]%string
                [0.5; 0.5; 0.5; 0.5]%Q [0.25; 0.25; 0.25; 0.25]%Q).

(** An object whose columns are not aligned: two sample types, one result. *)
Definition short_results : PollReader binary64 :=
  mkPollReader []
    (mkDataDict (N := binary64) ["Oct"; "Oct"]%string [28; 27] [1880; 2027] ["A"; "LV"]%string
                [0.49]%float [0.46]%float).

(** An object holding a table of five rows. *)
Definition five_rows : PollReader binary64 :=
  mkPollReader []
    (mkDataDict (N := binary64)
                ["Oct"; "Oct"; "Oct"; "Sep"; "Sep"]%string [28; 27; 26; 2; 1]
                [1880; 2027; 500; 100; 900] ["LV"; "A"; "RV"; "lv"; "LV"]%string
                [0.49; 0.57; 0.3; 0.45; 0.47]%float [0.46; 0.5; 0.6; 0.47; 0.44]%float).

(** The rows of a table of three rows, the second of registered voters. *)
Definition three_rows : list (Row binary64) :=
  [mkRow (N := binary64) "Oct" 28 1880 "LV" 0.1%float 0.3%float;
   mkRow (N := binary64) "Oct" 27 2027 "RV" 0.9%float 0.8%float;
   mkRow (N := binary64) "Oct" 26 500 "LV" 0.2%float 0.6%float].

(** An object whose Harris column begins with a NaN. *)
Definition nan_rows : PollReader binary64 :=
  mkPollReader []
    (mkDataDict (N := binary64) ["October"; "October"]%string [28; 27] [1880; 2027] ["LV"; "A"]%string
                [PrimFloat.nan; 0.5%float] [0.4; 0.4]%float).

(** An object whose Harris column holds the two zeros, and its rows
    exchanged. *)
Definition zero_rows : PollReader binary64 :=
  mkPollReader []
    (mkDataDict (N := binary64) ["October"; "October"]%string [28; 27] [1880; 2027] ["LV"; "A"]%string
                [(-0)%float; 0%float] [0; 0]%float).

Definition zero_rows_exchanged : list (Row binary64) :=
  [mkRow (N := binary64) "October" 27 2027 "A" 0%float 0%float;
   mkRow (N := binary64) "October" 28 1880 "LV" (-0)%float 0%float].

(** The data line of the interface description, with spaces around a field. *)
Definition example_line : string := "October, 28 ,1880 LV,0.49,0.46".

(** ** Proof steps *)

(** The cases of the comparisons of exponents and mantissas. *)
Ltac cmp_cases :=
  repeat match goal with
         | |- context [PosDef.Pos.compare_cont Eq ?a ?b] =>
             change (PosDef.Pos.compare_cont Eq a b) with (Pos.compare a b)
         | H : context [PosDef.Pos.compare_cont Eq ?a ?b] |- _ =>
             change (PosDef.Pos.compare_cont Eq a b) with (Pos.compare a b) in H
         | |- context [Z.compare ?a ?b] => destruct (Z.compare_spec a b); subst
         | |- context [Pos.compare ?a ?b] => destruct (Pos.compare_spec a b); subst
         | H : context [Z.compare ?a ?b] |- _ => destruct (Z.compare_spec a b); subst
         | H : context [Pos.compare ?a ?b] |- _ => destruct (Pos.compare_spec a b); subst
         end.

Ltac sf_cases :=
  cbv beta iota; intros;
  cmp_cases; cbn [CompOpp] in *; cbv beta iota in *;
  try discriminate; try reflexivity; try assumption; try (exfalso; lia).

(** A column of literals holds no NaN, and no negative zero. *)
Ltac no_nan := repeat constructor.

Ltac no_neg_zero :=
  repeat (constructor; [let H := fresh in intros H; vm_compute in H; discriminate H |]);
  try constructor.

(** * Properties *)

(** ** Facts about the built-ins *)

Lemma len_nonneg {A : Type} (l : list A) : 0 <= len l.
Proof. unfold len. lia. Qed.

Lemma slice_bound_in (n i : Z) : 0 <= i <= n -> slice_bound n i = i.
Proof. unfold slice_bound. intros H. destruct (Z.ltb_spec i 0); lia. Qed.

(** A slice with bounds in range is the segment between them. *)
Lemma py_slice_in_range {A : Type} (l : list A) (a b : nat) :
  (a <= b <= List.length l)%nat ->
  py_slice l (Z.of_nat a, Z.of_nat b) = firstn (b - a) (skipn a l).
Proof.
  intros H. unfold py_slice. cbn [fst snd].
  rewrite !slice_bound_in by (unfold len; lia).
  rewrite Nat2Z.id. f_equal. lia.
Qed.

Lemma window_size_le (n : nat) : (window_size n <= n)%nat.
Proof.
  unfold window_size. destruct (Nat.leb_spec 60 n).
  - lia.
  - apply Nat.Div0.div_le_upper_bound. lia.
Qed.

Lemma history_slices_nat (n : nat) :
  history_slices (Z.of_nat n) =
  ((Z.of_nat 0, Z.of_nat (window_size n)),
   (Z.of_nat (n - window_size n), Z.of_nat n)).
Proof.
  pose proof (window_size_le n) as Hle.
  unfold history_slices, window_size in *.
  destruct (Z.leb_spec 60 (Z.of_nat n)); destruct (Nat.leb_spec 60 n); try lia.
  - repeat f_equal; lia.
  - rewrite Nat2Z.inj_sub by exact Hle. rewrite Nat2Z.inj_div. reflexivity.
Qed.

Lemma latest_slice_firstn {A : Type} (l : list A) (n : nat) :
  List.length l = n ->
  py_slice l (fst (history_slices (Z.of_nat n))) = firstn (window_size n) l.
Proof.
  intros Hn. pose proof (window_size_le n).
  rewrite history_slices_nat. cbn [fst].
  rewrite py_slice_in_range by lia.
  rewrite Nat.sub_0_r. reflexivity.
Qed.

Lemma earliest_slice_skipn {A : Type} (l : list A) (n : nat) :
  List.length l = n ->
  py_slice l (snd (history_slices (Z.of_nat n))) = skipn (n - window_size n) l.
Proof.
  intros Hn. pose proof (window_size_le n).
  rewrite history_slices_nat. cbn [snd].
  rewrite py_slice_in_range by lia.
  apply firstn_all2. rewrite length_skipn. lia.
Qed.

Lemma window_size_pos (n : nat) : (2 <= n)%nat -> (window_size n <> 0)%nat.
Proof.
  intros H. unfold window_size. destruct (Nat.leb_spec 60 n); [lia |].
  intros E. apply Nat.div_small_iff in E; lia.
Qed.

Section Windows.

Context {N : Number}.

Lemma firstn_rows_at (l : list (num N)) (k : nat) :
  (k <= List.length l)%nat -> firstn k l = rows_at l 0 k.
Proof.
  intros Hk. unfold rows_at.
  apply nth_ext with (d := of_int 0) (d' := of_int 0).
  - rewrite length_firstn, length_map, length_seq. lia.
  - intros i Hi. rewrite length_firstn in Hi.
    rewrite nth_firstn.
    destruct (Nat.ltb_spec i k); try lia.
    rewrite (nth_indep (map _ _) _ ((fun j => nth j l (of_int 0)) 0%nat))
      by (rewrite length_map, length_seq; lia).
    rewrite (map_nth (fun j => nth j l (of_int 0))), seq_nth by lia. reflexivity.
Qed.

Lemma skipn_rows_at (l : list (num N)) (n k : nat) :
  List.length l = n -> (k <= n)%nat ->
  skipn (n - k) l = rows_at l (n - k) k.
Proof.
  intros Hn Hk. subst n. unfold rows_at.
  apply nth_ext with (d := of_int 0) (d' := of_int 0).
  - rewrite length_skipn, length_map, length_seq. lia.
  - intros i Hi. rewrite length_skipn in Hi.
    rewrite nth_skipn.
    rewrite (nth_indep (map _ _) _ ((fun j => nth j l (of_int 0)) 0%nat))
      by (rewrite length_map, length_seq; lia).
    rewrite (map_nth (fun j => nth j l (of_int 0))), seq_nth by lia. reflexivity.
Qed.

Lemma length_rows_at (l : list (num N)) (a k : nat) : List.length (rows_at l a k) = k.
Proof. unfold rows_at. rewrite length_map, length_seq. reflexivity. Qed.

Lemma rows_at_nonempty (l : list (num N)) (a k : nat) : k <> 0%nat -> rows_at l a k <> [].
Proof.
  intros Hk E. apply (f_equal (@List.length (num N))) in E.
  rewrite length_rows_at in E. simpl in E. contradiction.
Qed.

(** ** Sums and means *)

Lemma py_div_ok (x : num N) (n : Z) :
  n <> 0 -> py_div x n = Ok (divide x (of_int n)).
Proof. intros H. unfold py_div. destruct (Z.eqb_spec n 0); [contradiction | reflexivity]. Qed.

Lemma running_sum_app (l l' : list (num N)) (k : nat) :
  (k <= List.length l)%nat -> running_sum (l ++ l') k = running_sum l k.
Proof.
  induction k as [| k IH]; intros Hk; cbn [running_sum]; [reflexivity |].
  rewrite IH by lia. rewrite app_nth1 by lia. reflexivity.
Qed.

(** The loop of [sum] computes the sum of the values in their order. *)
Lemma py_sum_running (l : list (num N)) : py_sum l = running_sum l (List.length l).
Proof.
  induction l as [| x l IH] using rev_ind; [reflexivity |].
  unfold py_sum in *. rewrite fold_left_app. cbn [fold_left].
  rewrite length_app. cbn [List.length]. rewrite Nat.add_1_r. cbn [running_sum].
  rewrite running_sum_app by lia. rewrite <- IH.
  rewrite app_nth2 by lia. rewrite Nat.sub_diag. reflexivity.
Qed.

Lemma py_div_mean (l : list (num N)) :
  l <> [] -> py_div (py_sum l) (len l) = Ok (mean_of l).
Proof.
  intros H. unfold mean_of. rewrite <- py_sum_running. apply py_div_ok.
  unfold len. destruct l; [contradiction | simpl; lia].
Qed.

(** The branch on an empty list of values and the division. *)
Lemma average_run (l : list (num N)) :
  match l with
  | [] => Ok (of_int 0)
  | _ => py_div (py_sum l) (len l)
  end = Ok (average_of l).
Proof.
  destruct l as [| x xs]; [reflexivity |].
  apply py_div_mean. discriminate.
Qed.

(** ** polling_history_change *)

Lemma aligned_Trump (d : DataDict N) :
  aligned d -> List.length (Trump_result d) = row_count d.
Proof. intros H. apply H. Qed.

(** The outcome of the query in terms of the two windows of each column. *)
Lemma polling_history_change_windows (s : PollReader N) :
  let h := Harris_result (data_dict s) in
  let t := Trump_result (data_dict s) in
  let n := row_count (data_dict s) in
  let k := window_size n in
  List.length t = n ->
  polling_history_change s =
  (s, if (k =? 0)%nat then Raise ZeroDivisionError
      else Ok (minus (mean_of (rows_at h 0 k)) (mean_of (rows_at h (n - k) k)),
               minus (mean_of (rows_at t 0 k)) (mean_of (rows_at t (n - k) k)))).
Proof.
  intros h t n k Ht.
  assert (Hh : List.length h = n) by reflexivity.
  pose proof (window_size_le n) as Hk. fold k in Hk.
  unfold polling_history_change, bind, get_col, lift, ret.
  fold h. fold t. change (len h) with (Z.of_nat n).
  rewrite !(latest_slice_firstn h n Hh), !(latest_slice_firstn t n Ht).
  rewrite !(earliest_slice_skipn h n Hh), !(earliest_slice_skipn t n Ht).
  fold k.
  rewrite (firstn_rows_at h k), (firstn_rows_at t k) by lia.
  rewrite (skipn_rows_at h n k Hh Hk), (skipn_rows_at t n k Ht Hk).
  destruct (Nat.eqb_spec k 0) as [Hz | Hz].
  - rewrite Hz. reflexivity.
  - rewrite !py_div_mean by (apply rows_at_nonempty; exact Hz). reflexivity.
Qed.

(** C1. For a table of [n] rows whose columns are aligned, the slices that
    [polling_history_change] takes are the rows [0 .. k-1] (latest) and
    [n-k .. n-1] (earliest) of each column, where [k] is 30 when [n >= 60]
    and [n // 2] otherwise; for [n = 59] that is 29 rows each and for
    [n = 60] it is 30 rows each; and with at least two rows the query
    returns, for Harris and for Trump, the mean over the latest window
    minus the mean over the earliest window, the mean of a window being
    the sum of its values in their order divided by their number. *)
Theorem polling_history_change_window_selection (s : PollReader N) :
  aligned (data_dict s) ->
  let h := Harris_result (data_dict s) in
  let t := Trump_result (data_dict s) in
  let n := row_count (data_dict s) in
  let k := if (60 <=? n)%nat then 30%nat else (n / 2)%nat in
  py_slice h (fst (history_slices (len h))) = rows_at h 0 k /\
  py_slice h (snd (history_slices (len h))) = rows_at h (n - k) k /\
  py_slice t (fst (history_slices (len h))) = rows_at t 0 k /\
  py_slice t (snd (history_slices (len h))) = rows_at t (n - k) k /\
  List.length (rows_at h 0 k) = k /\
  List.length (rows_at h (n - k) k) = k /\
  (n = 59%nat -> k = 29%nat) /\
  (n = 60%nat -> k = 30%nat) /\
  ((2 <= n)%nat ->
   polling_history_change s =
   (s, Ok (minus (mean_of (rows_at h 0 k)) (mean_of (rows_at h (n - k) k)),
           minus (mean_of (rows_at t 0 k)) (mean_of (rows_at t (n - k) k))))).
Proof.
  intros Hal h t n k.
  pose proof (aligned_Trump _ Hal) as Ht. fold t n in Ht.
  assert (Hh : List.length h = n) by reflexivity.
  change k with (window_size n).
  pose proof (window_size_le n) as Hk.
  change (len h) with (Z.of_nat n).
  rewrite (latest_slice_firstn h n Hh), (latest_slice_firstn t n Ht).
  rewrite (earliest_slice_skipn h n Hh), (earliest_slice_skipn t n Ht).
  rewrite (firstn_rows_at h), (firstn_rows_at t) by lia.
  rewrite (skipn_rows_at h n _ Hh Hk), (skipn_rows_at t n _ Ht Hk).
  rewrite !length_rows_at.
  repeat split.
  - intros E. rewrite E. reflexivity.
  - intros E. rewrite E. reflexivity.
  - intros Hn. rewrite (polling_history_change_windows s Ht).
    fold h t n.
    destruct (Nat.eqb_spec (window_size n) 0) as [E | E].
    + exfalso. revert E. apply window_size_pos. exact Hn.
    + reflexivity.
Qed.

(** C3 (amended). For a table with at most one row,
    [polling_history_change] fails at query time with the built-in
    [ZeroDivisionError] of the mean over an empty window, and leaves the
    object as it was. *)
Theorem polling_history_change_short_table (s : PollReader N) :
  (row_count (data_dict s) <= 1)%nat ->
  polling_history_change s = (s, Raise ZeroDivisionError).
Proof.
  destruct s as [raw [mo da sa st h t]]. unfold row_count. cbn [data_dict Harris_result].
  intros Hn.
  destruct h as [| x [| y h']]; [reflexivity | reflexivity | simpl in Hn; lia].
Qed.

End Windows.

(** ** polling_history_change on exact rationals *)

Lemma inject_Z_len_cons {A : Type} (x : A) (l : list A) :
  (inject_Z (len (x :: l)) == inject_Z (len l) + 1)%Q.
Proof.
  unfold len. cbn [List.length]. rewrite Nat2Z.inj_succ, <- Z.add_1_r.
  rewrite inject_Z_plus. reflexivity.
Qed.

Lemma fold_plus_const (c : Q) (l : list Q) (a : Q) :
  Forall (fun x => x == c)%Q l ->
  (fold_left Qplus l a == a + c * inject_Z (len l))%Q.
Proof.
  revert a. induction l as [| x xs IH]; intros a H.
  - cbn. ring.
  - inversion H as [| ? ? Hx Hxs]; subst. cbv beta in Hx.
    cbn [fold_left]. rewrite (IH _ Hxs), inject_Z_len_cons, Hx. ring.
Qed.

Lemma inject_Z_len_nonzero {A : Type} (l : list A) :
  l <> [] -> ~ (inject_Z (len l) == 0)%Q.
Proof.
  intros H E. destruct l as [| x xs]; [contradiction |].
  unfold len, Qeq in E. cbn in E. lia.
Qed.

Lemma mean_const (c : Q) (l : list (num exact)) :
  l <> [] -> Forall (fun x => x == c)%Q l -> (mean_of l == c)%Q.
Proof.
  intros Hne H. unfold mean_of. rewrite <- py_sum_running.
  unfold py_sum. cbn [plus of_int divide exact].
  rewrite (fold_plus_const c l (inject_Z 0) H).
  change (inject_Z (Z.of_nat (List.length l))) with (inject_Z (len l)).
  change (inject_Z 0) with 0%Q.
  change (@len (num exact) l) with (@len Q l).
  field. apply inject_Z_len_nonzero. exact Hne.
Qed.

Lemma Forall_rows_at {N : Number} (P : num N -> Prop) (l : list (num N)) (a k : nat) :
  (a + k <= List.length l)%nat -> Forall P l -> Forall P (rows_at l a k).
Proof.
  intros Hb H. unfold rows_at. apply Forall_forall. intros x Hx.
  apply in_map_iff in Hx. destruct Hx as [i [Hi Hin]]. subst x.
  apply in_seq in Hin.
  rewrite Forall_forall in H. apply H. apply nth_In. lia.
Qed.

(** C9. On a table of at least two rows whose Harris results all equal one
    constant and whose Trump results all equal another, in exact rational
    arithmetic, the history change is (0, 0). *)
Theorem polling_history_change_constant (s : PollReader exact) (c_h c_t : Q) :
  aligned (data_dict s) ->
  (2 <= row_count (data_dict s))%nat ->
  Forall (fun x => x == c_h)%Q (Harris_result (data_dict s)) ->
  Forall (fun x => x == c_t)%Q (Trump_result (data_dict s)) ->
  exists dh dt : Q,
    polling_history_change s = (s, Ok (dh, dt)) /\ (dh == 0)%Q /\ (dt == 0)%Q.
Proof.
  intros Hal Hn Hch Hct.
  pose proof (aligned_Trump _ Hal) as Ht.
  rewrite (polling_history_change_windows s Ht).
  set (n := row_count (data_dict s)) in *.
  set (k := window_size n).
  assert (Hk : k <> 0%nat) by (apply window_size_pos; exact Hn).
  pose proof (window_size_le n) as Hle. fold k in Hle.
  destruct (Nat.eqb_spec k 0) as [E | _]; [contradiction |].
  eexists. eexists. split; [reflexivity |].
  assert (Hm : forall (l : list (num exact)) c a, List.length l = n -> (a + k <= n)%nat ->
                 Forall (fun x => x == c)%Q l -> (mean_of (rows_at l a k) == c)%Q).
  { intros l c a Hl Ha Hc. apply mean_const.
    - apply rows_at_nonempty. exact Hk.
    - apply (Forall_rows_at (N := exact)); [lia | exact Hc]. }
  cbn [minus exact]. split.
  - rewrite (Hm _ c_h 0%nat), (Hm _ c_h (n - k)%nat); try lia; try assumption; try reflexivity.
    ring.
  - rewrite (Hm _ c_t 0%nat), (Hm _ c_t (n - k)%nat); try lia; try assumption.
    ring.
Qed.

(** ** The order of binary64 floats *)

Lemma SFleb_trans (a b c : spec_float) :
  SFleb a b = true -> SFleb b c = true -> SFleb a c = true.
Proof.
  unfold SFleb, SFcompare.
  destruct a as [sa | sa | | sa ma ea], b as [sb | sb | | sb mb eb],
           c as [sc | sc | | sc mc ec];
    try destruct sa; try destruct sb; try destruct sc; sf_cases.
Qed.

Lemma SFleb_ltb_trans (a b c : spec_float) :
  SFleb a b = true -> SFltb b c = true -> SFltb a c = true.
Proof.
  unfold SFleb, SFltb, SFcompare.
  destruct a as [sa | sa | | sa ma ea], b as [sb | sb | | sb mb eb],
           c as [sc | sc | | sc mc ec];
    try destruct sa; try destruct sb; try destruct sc; sf_cases.
Qed.

Lemma SFltb_leb (a b : spec_float) : SFltb a b = true -> SFleb a b = true.
Proof.
  unfold SFltb, SFleb, SFcompare.
  destruct a as [sa | sa | | sa ma ea], b as [sb | sb | | sb mb eb];
    try destruct sa; try destruct sb; sf_cases.
Qed.

Lemma SFnot_ltb_leb (a b : spec_float) :
  a <> S754_nan -> b <> S754_nan -> SFltb a b = false -> SFleb b a = true.
Proof.
  unfold SFltb, SFleb, SFcompare.
  destruct a as [sa | sa | | sa ma ea], b as [sb | sb | | sb mb eb];
    try destruct sa; try destruct sb; try (intros H; contradiction H; reflexivity);
    try (intros _ H; contradiction H; reflexivity); intros _ _; sf_cases.
Qed.

Lemma SFleb_refl (a : spec_float) : a <> S754_nan -> SFleb a a = true.
Proof.
  unfold SFleb, SFcompare.
  destruct a as [sa | sa | | sa ma ea]; try destruct sa;
    try (intros H; contradiction H; reflexivity); intros _; sf_cases.
Qed.

Lemma SFleb_antisym (a b : spec_float) :
  SFleb a b = true -> SFleb b a = true ->
  a = b \/ (exists s s', a = S754_zero s /\ b = S754_zero s').
Proof.
  unfold SFleb, SFcompare.
  destruct a as [sa | sa | | sa ma ea], b as [sb | sb | | sb mb eb];
    try destruct sa; try destruct sb; cbv beta iota; intros;
    try discriminate; try (left; reflexivity);
    try (right; eexists; eexists; split; reflexivity);
    cmp_cases; cbn [CompOpp] in *; cbv beta iota in *; try discriminate;
    try (left; reflexivity); try (exfalso; lia).
Qed.

Lemma SFleb_antisym_eqb (a b : spec_float) :
  SFleb a b = true -> SFleb b a = true -> SFeqb a b = true.
Proof.
  unfold SFleb, SFeqb, SFcompare.
  destruct a as [sa | sa | | sa ma ea], b as [sb | sb | | sb mb eb];
    try destruct sa; try destruct sb; sf_cases.
Qed.

Lemma not_nan_spec (x : PrimFloat.float) : not_nan x <-> Prim2SF x <> S754_nan.
Proof.
  unfold not_nan, PrimFloat.is_nan. rewrite negb_false_iff, eqb_spec. unfold SFeqb.
  destruct (Prim2SF x) as [s | s | | s m e]; cbn.
  - split; [discriminate | reflexivity].
  - destruct s; split; (discriminate || reflexivity).
  - split; [discriminate | intros H; contradiction H; reflexivity].
  - destruct s; rewrite Z.compare_refl, Pos.compare_refl; cbn; split;
      (discriminate || reflexivity).
Qed.

Lemma float_leb_trans (x y z : PrimFloat.float) :
  PrimFloat.leb x y = true -> PrimFloat.leb y z = true -> PrimFloat.leb x z = true.
Proof. rewrite !leb_spec. apply SFleb_trans. Qed.

Lemma float_leb_ltb_trans (x y z : PrimFloat.float) :
  PrimFloat.leb x y = true -> PrimFloat.ltb y z = true -> PrimFloat.ltb x z = true.
Proof. rewrite !leb_spec, !ltb_spec. apply SFleb_ltb_trans. Qed.

Lemma float_ltb_leb (x y : PrimFloat.float) :
  PrimFloat.ltb x y = true -> PrimFloat.leb x y = true.
Proof. rewrite leb_spec, ltb_spec. apply SFltb_leb. Qed.

Lemma float_not_ltb_leb (x y : PrimFloat.float) :
  not_nan x -> not_nan y -> PrimFloat.ltb x y = false -> PrimFloat.leb y x = true.
Proof.
  rewrite !not_nan_spec, leb_spec, ltb_spec. apply SFnot_ltb_leb.
Qed.

Lemma float_leb_refl (x : PrimFloat.float) : not_nan x -> PrimFloat.leb x x = true.
Proof. rewrite not_nan_spec, leb_spec. apply SFleb_refl. Qed.

Lemma float_leb_antisym_eqb (x y : PrimFloat.float) :
  PrimFloat.leb x y = true -> PrimFloat.leb y x = true -> PrimFloat.eqb x y = true.
Proof. rewrite !leb_spec, eqb_spec. apply SFleb_antisym_eqb. Qed.

(** Two floats that compare equal are the same float, the two zeros apart. *)
Lemma float_leb_antisym (x y : PrimFloat.float) :
  not_neg_zero x -> not_neg_zero y ->
  PrimFloat.leb x y = true -> PrimFloat.leb y x = true -> x = y.
Proof.
  unfold not_neg_zero. rewrite !leb_spec. intros Hx Hy H1 H2.
  apply Prim2SF_inj.
  destruct (SFleb_antisym _ _ H1 H2) as [E | [s [s' [Ex Ey]]]]; [exact E |].
  rewrite Ex, Ey in *.
  destruct s; [contradiction Hx; reflexivity |].
  destruct s'; [contradiction Hy; reflexivity |]. reflexivity.
Qed.

(** ** The maximum of a column of floats *)

(** The loop of [max] on floats without NaN: its result is the start value
    or a later element, and bounds both. *)
Lemma max_loop_spec (xs : list PrimFloat.float) :
  forall x : PrimFloat.float,
    not_nan x -> Forall not_nan xs ->
    let m := fold_left (fun m y => if PrimFloat.ltb m y then y else m) xs x in
    (m = x \/ In m xs) /\ PrimFloat.leb x m = true /\
    Forall (fun y => PrimFloat.leb y m = true) xs.
Proof.
  induction xs as [| y ys IH]; intros x Hx Hxs; cbn [fold_left].
  - split; [left; reflexivity |]. split; [apply float_leb_refl; exact Hx | constructor].
  - inversion Hxs as [| ? ? Hy Hys]; subst.
    assert (Hc : not_nan (if PrimFloat.ltb x y then y else x))
      by (destruct (PrimFloat.ltb x y); assumption).
    destruct (IH _ Hc Hys) as [Hin [Hle Hall]].
    set (m := fold_left _ ys _) in *.
    destruct (PrimFloat.ltb x y) eqn:E.
    + split; [destruct Hin as [-> | Hin]; [right; left; reflexivity | right; right; exact Hin] |].
      split; [apply float_leb_trans with y; [apply float_ltb_leb; exact E | exact Hle] |].
      constructor; assumption.
    + split; [destruct Hin as [-> | Hin]; [left; reflexivity | right; right; exact Hin] |].
      split; [exact Hle |].
      constructor; [| exact Hall].
      apply float_leb_trans with x; [| exact Hle].
      apply float_not_ltb_leb; assumption.
Qed.

Lemma py_max_is_max (l : list PrimFloat.float) (m : PrimFloat.float) :
  Forall not_nan l -> py_max (N := binary64) l = Ok m -> is_max m l.
Proof.
  destruct l as [| x xs]; cbn [py_max]; [discriminate |].
  intros Hl H. injection H as <-.
  inversion Hl as [| ? ? Hx Hxs]; subst.
  destruct (max_loop_spec xs x Hx Hxs) as [Hin [Hle Hall]].
  cbn [greater binary64].
  split.
  - destruct Hin as [E | Hin]; [left; symmetry; exact E | right; exact Hin].
  - constructor; assumption.
Qed.

Lemma py_max_nonempty {N : Number} (l : list (num N)) :
  l <> [] -> exists m, py_max l = Ok m.
Proof. destruct l; [contradiction | intros _; eexists; reflexivity]. Qed.

Lemma is_max_not_nan (m : PrimFloat.float) (l : list PrimFloat.float) :
  Forall not_nan l -> is_max m l -> not_nan m.
Proof. intros H [Hin _]. rewrite Forall_forall in H. apply H, Hin. Qed.

(** A column without negative zero has one maximum. *)
Lemma is_max_unique (l : list PrimFloat.float) (m m' : PrimFloat.float) :
  Forall not_neg_zero l -> is_max m l -> is_max m' l -> m = m'.
Proof.
  intros Hz [Hin Hall] [Hin' Hall']. rewrite Forall_forall in Hz, Hall, Hall'.
  apply float_leb_antisym; auto.
Qed.

Lemma is_max_perm (m : PrimFloat.float) (l l' : list PrimFloat.float) :
  Permutation l l' -> is_max m l -> is_max m l'.
Proof.
  intros HP [Hin Hall]. split.
  - apply (Permutation_in _ HP). exact Hin.
  - apply (Permutation_Forall HP). exact Hall.
Qed.

(** ** Formatting with [:.1f] *)

Lemma round_half_even_nearest (x : Q) :
  (0 <= x)%Q ->
  0 <= round_half_even x /\
  (Qabs (x - inject_Z (round_half_even x)) <= 1 # 2)%Q /\
  ((Qabs (x - inject_Z (round_half_even x)) == 1 # 2)%Q ->
   Z.even (round_half_even x) = true).
Proof.
  intros Hx. unfold round_half_even. set (f := Qfloor x).
  pose proof (Qfloor_le x) as Hlo. pose proof (Qlt_floor x) as Hhi.
  fold f in Hlo, Hhi. rewrite inject_Z_plus in Hhi.
  change (inject_Z 1) with 1%Q in Hhi.
  assert (Hf : 0 <= f).
  { unfold f. change 0 with (Qfloor 0). apply Qfloor_resp_le. exact Hx. }
  assert (Hup : (inject_Z (f + 1) == inject_Z f + 1)%Q)
    by (rewrite inject_Z_plus; reflexivity).
  clearbody f.
  destruct (Qcompare (x - inject_Z f) (1 # 2)) eqn:C.
  - apply Qeq_alt in C. destruct (Z.even f) eqn:Ev.
    + split; [lia |]. split; [apply Qabs_Qle_condition; lra | intros _; exact Ev].
    + split; [lia |]. split; [apply Qabs_Qle_condition; rewrite Hup; lra |].
      intros _. rewrite Z.even_add, Ev. reflexivity.
  - apply Qlt_alt in C. split; [lia |]. split; [apply Qabs_Qle_condition; lra |].
    intros E. exfalso. rewrite Qabs_pos in E by lra. lra.
  - apply Qgt_alt in C. split; [lia |].
    split; [apply Qabs_Qle_condition; rewrite Hup; lra |].
    intros E. exfalso. rewrite Qabs_neg in E by (rewrite Hup; lra).
    rewrite Hup in E. lra.
Qed.

(** The digits written for a natural number read back as that number. *)
Lemma numeral_digits_of (z : Z) : 0 <= z -> numeral z (digits_of z).
Proof.
  intros Hz. unfold numeral, digits_of. set (n := Z.to_N z).
  assert (Hnorm : Decimal.unorm (N.to_uint n) = N.to_uint n).
  { rewrite <- (DecimalN.Unsigned.to_of (N.to_uint n)).
    rewrite DecimalN.Unsigned.of_to. reflexivity. }
  exists (N.to_uint n). split; [| split].
  - apply NilZero.usu. intros E. rewrite E in Hnorm. discriminate Hnorm.
  - exact Hnorm.
  - rewrite DecimalN.Unsigned.of_to. unfold n. apply Z2N.id. exact Hz.
Qed.

Lemma digits_of_digit (r : Z) :
  0 <= r < 10 -> exists d : ascii, digits_of r = String d EmptyString.
Proof.
  intros H.
  assert (E : r = 0 \/ r = 1 \/ r = 2 \/ r = 3 \/ r = 4 \/
              r = 5 \/ r = 6 \/ r = 7 \/ r = 8 \/ r = 9) by lia.
  repeat (destruct E as [E | E]; [rewrite E; eexists; reflexivity |]).
  rewrite E. eexists. reflexivity.
Qed.

Lemma fmt_tenths_writes (x : Q) : (0 <= x)%Q -> writes_tenths x (fmt_tenths x).
Proof.
  intros Hx. unfold writes_tenths, fmt_tenths.
  assert (Hx10 : (0 <= x * 10)%Q) by lra.
  destruct (round_half_even_nearest (x * 10) Hx10) as [Ht [Hnear Htie]].
  set (t := round_half_even (x * 10)) in *.
  destruct (digits_of_digit (t mod 10)) as [d Hd].
  { apply Z.mod_pos_bound. lia. }
  exists t, (digits_of (t / 10)), d. split; [| split; [| split]].
  - split; [exact Ht |]. split; [exact Hnear | exact Htie].
  - apply numeral_digits_of. apply Z.div_pos; lia.
  - rewrite <- Hd. apply numeral_digits_of. apply Z.mod_pos_bound. lia.
  - rewrite Hd. reflexivity.
Qed.

Lemma float_magnitude_nonneg (m : positive) (e : Z) : (0 <= float_magnitude m e)%Q.
Proof.
  unfold float_magnitude. destruct (e <? 0).
  - unfold Qle. cbn [Qnum Qden]. lia.
  - change 0%Q with (inject_Z 0). rewrite <- Zle_Qle.
    apply Z.mul_nonneg_nonneg; [lia |]. apply Z.pow_nonneg. lia.
Qed.

(** [float_fmt_1f] writes a float as [:.1f] does. *)
Lemma float_fmt_1f_writes (x : PrimFloat.float) : writes_1f x (float_fmt_1f x).
Proof.
  unfold writes_1f, float_fmt_1f.
  destruct (Prim2SF x) as [s | s | | s m e]; try reflexivity.
  exists (fmt_tenths (float_magnitude m e)).
  split; [apply fmt_tenths_writes, float_magnitude_nonneg | reflexivity].
Qed.

(** ** highest_polling_candidate *)

(** C6 (amended). On a table without rows, [highest_polling_candidate]
    fails at query time with the built-in [ValueError] that [max] raises
    for an empty sequence; it returns no default and leaves the object as
    it was. *)
Theorem highest_polling_candidate_empty {N : Number} (s : PollReader N) :
  Harris_result (data_dict s) = [] ->
  highest_polling_candidate s = (s, Raise ValueError).
Proof.
  intros H. unfold highest_polling_candidate, bind, get_col, lift.
  rewrite H. reflexivity.
Qed.

(** The outcome of the query on the results of the two calls of [max]. *)
Lemma highest_polling_candidate_run {N : Number} (s : PollReader N) (m1 m2 : num N) :
  py_max (Harris_result (data_dict s)) = Ok m1 ->
  py_max (Trump_result (data_dict s)) = Ok m2 ->
  highest_polling_candidate s =
  (s, Ok (if greater m1 m2 then "Harris " ++ fmt_1f (times m1 (of_int 100)) ++ "%"
          else if greater m2 m1 then "Trump " ++ fmt_1f (times m2 (of_int 100)) ++ "%"
          else "EVEN " ++ fmt_1f (times m1 (of_int 100)) ++ "%")%string).
Proof.
  intros H1 H2. unfold highest_polling_candidate, bind, get_col, lift, ret.
  rewrite H1, H2.
  destruct (greater m1 m2); [reflexivity |]. destruct (greater m2 m1); reflexivity.
Qed.

Lemma float_hundred : float_of_int 100 = 100%float.
Proof. reflexivity. Qed.

(** The outcome on a table of floats, the comparisons and the product
    written out. *)
Lemma highest_polling_candidate_floats (s : PollReader binary64) (m1 m2 : PrimFloat.float) :
  py_max (N := binary64) (Harris_result (data_dict s)) = Ok m1 ->
  py_max (N := binary64) (Trump_result (data_dict s)) = Ok m2 ->
  highest_polling_candidate s =
  (s, Ok (if PrimFloat.ltb m2 m1
          then "Harris " ++ float_fmt_1f (m1 * 100)%float ++ "%"
          else if PrimFloat.ltb m1 m2
               then "Trump " ++ float_fmt_1f (m2 * 100)%float ++ "%"
               else "EVEN " ++ float_fmt_1f (m1 * 100)%float ++ "%")%string).
Proof.
  intros H1 H2. rewrite (highest_polling_candidate_run s m1 m2 H1 H2). reflexivity.
Qed.

Lemma columns_have_maxima (s : PollReader binary64) :
  aligned (data_dict s) ->
  row_count (data_dict s) <> 0%nat ->
  exists m1 m2 : PrimFloat.float,
    py_max (N := binary64) (Harris_result (data_dict s)) = Ok m1 /\
    py_max (N := binary64) (Trump_result (data_dict s)) = Ok m2.
Proof.
  intros Hal Hn.
  destruct (py_max_nonempty (N := binary64) (Harris_result (data_dict s))) as [m1 H1].
  { intros E. apply Hn. unfold row_count. rewrite E. reflexivity. }
  destruct (py_max_nonempty (N := binary64) (Trump_result (data_dict s))) as [m2 H2].
  { intros E. apply Hn. rewrite <- (aligned_Trump _ Hal), E. reflexivity. }
  exists m1, m2. split; assumption.
Qed.

(** C4 (amended). On a table of floats with at least one row and without
    NaN, the Harris column and the Trump column each have a maximum, taken
    independently; the query returns "Harris ", [h_max * 100] as [:.1f]
    writes it and "%" when [h_max > t_max], the same for Trump when
    [t_max > h_max], and "EVEN " with [h_max * 100] when the two maxima
    are equal; and [:.1f] writes a finite product with exactly one decimal
    place, rounded to the nearest tenth of the value that the float holds. *)
Theorem highest_polling_candidate_result (s : PollReader binary64) :
  aligned (data_dict s) ->
  row_count (data_dict s) <> 0%nat ->
  Forall not_nan (Harris_result (data_dict s)) ->
  Forall not_nan (Trump_result (data_dict s)) ->
  exists (h_max t_max : PrimFloat.float) (h_pct t_pct : string),
    is_max h_max (Harris_result (data_dict s)) /\
    is_max t_max (Trump_result (data_dict s)) /\
    writes_1f (h_max * 100)%float h_pct /\
    writes_1f (t_max * 100)%float t_pct /\
    (PrimFloat.ltb t_max h_max = true ->
     highest_polling_candidate s = (s, Ok ("Harris " ++ h_pct ++ "%")%string)) /\
    (PrimFloat.ltb h_max t_max = true ->
     highest_polling_candidate s = (s, Ok ("Trump " ++ t_pct ++ "%")%string)) /\
    (PrimFloat.eqb h_max t_max = true ->
     highest_polling_candidate s = (s, Ok ("EVEN " ++ h_pct ++ "%")%string)).
Proof.
  intros Hal Hn Hh Ht.
  destruct (columns_have_maxima s Hal Hn) as [m1 [m2 [H1 H2]]].
  pose proof (py_max_is_max _ _ Hh H1) as M1.
  pose proof (py_max_is_max _ _ Ht H2) as M2.
  pose proof (is_max_not_nan _ _ Hh M1) as N1.
  pose proof (is_max_not_nan _ _ Ht M2) as N2.
  exists m1, m2, (float_fmt_1f (m1 * 100)%float), (float_fmt_1f (m2 * 100)%float).
  split; [exact M1 |]. split; [exact M2 |].
  split; [apply float_fmt_1f_writes |]. split; [apply float_fmt_1f_writes |].
  rewrite (highest_polling_candidate_floats s m1 m2 H1 H2).
  split; [| split].
  - intros L. rewrite L. reflexivity.
  - intros L.
    assert (G : PrimFloat.ltb m2 m1 = false).
    { destruct (PrimFloat.ltb m2 m1) eqn:E; [| reflexivity].
      pose proof (float_leb_ltb_trans _ _ _ (float_ltb_leb _ _ L) E) as C.
      rewrite ltb_spec in C. revert C. clear.
      unfold SFltb, SFcompare. destruct (Prim2SF m1) as [sa | sa | | sa ma ea];
        try destruct sa; sf_cases. }
    rewrite G, L. reflexivity.
  - intros E. rewrite eqb_spec in E.
    assert (G1 : PrimFloat.ltb m2 m1 = false).
    { rewrite ltb_spec. revert E. unfold SFeqb, SFltb, SFcompare.
      destruct (Prim2SF m1) as [sa | sa | | sa ma ea], (Prim2SF m2) as [sb | sb | | sb mb eb];
        try destruct sa; try destruct sb; sf_cases. }
    assert (G2 : PrimFloat.ltb m1 m2 = false).
    { rewrite ltb_spec. revert E. unfold SFeqb, SFltb, SFcompare.
      destruct (Prim2SF m1) as [sa | sa | | sa ma ea], (Prim2SF m2) as [sb | sb | | sb mb eb];
        try destruct sa; try destruct sb; sf_cases. }
    rewrite G1, G2. reflexivity.
Qed.

(** ** Tables and rows *)

Lemma map_nth_seq_all {A : Type} (l : list A) (d : A) (n : nat) :
  List.length l = n -> map (fun i => nth i l d) (seq 0 n) = l.
Proof.
  intros Hn. apply nth_ext with (d := d) (d' := d).
  - rewrite length_map, length_seq. symmetry. exact Hn.
  - intros i Hi. rewrite length_map, length_seq in Hi.
    rewrite (nth_indep (map _ _) _ ((fun j => nth j l d) 0%nat))
      by (rewrite length_map, length_seq; lia).
    rewrite (map_nth (fun j => nth j l d)), seq_nth by lia. reflexivity.
Qed.

(** An aligned table is the table of its rows. *)
Lemma table_of_rows_of {N : Number} (d : DataDict N) :
  aligned d -> table_of_rows (rows_of d) = d.
Proof.
  intros [Hm [Hd [Hs [Hst Ht]]]].
  destruct d as [mo da sa st h t]. unfold table_of_rows, rows_of.
  cbn [month date sample sample_type Harris_result Trump_result] in *.
  rewrite !map_map. cbn [r_month r_date r_sample r_sample_type r_harris r_trump].
  f_equal; apply map_nth_seq_all; auto.
Qed.

Lemma aligned_table_of_rows {N : Number} (rs : list (Row N)) :
  aligned (table_of_rows rs) /\ row_count (table_of_rows rs) = List.length rs.
Proof.
  unfold aligned, row_count, table_of_rows.
  cbn [month date sample sample_type Harris_result Trump_result].
  rewrite !length_map. repeat split; reflexivity.
Qed.

(** C10 (amended). The answer of [highest_polling_candidate] on a table of
    floats with at least one row, without NaN and without negative zero,
    does not change when the rows of the table are permuted. *)
Theorem highest_polling_candidate_permutation
    (s : PollReader binary64) (rs' : list (Row binary64)) :
  aligned (data_dict s) ->
  row_count (data_dict s) <> 0%nat ->
  Forall not_nan (Harris_result (data_dict s)) ->
  Forall not_nan (Trump_result (data_dict s)) ->
  Forall not_neg_zero (Harris_result (data_dict s)) ->
  Forall not_neg_zero (Trump_result (data_dict s)) ->
  Permutation (rows_of (data_dict s)) rs' ->
  snd (highest_polling_candidate (mkPollReader (raw_data s) (table_of_rows rs'))) =
  snd (highest_polling_candidate s).
Proof.
  intros Hal Hn Hh Ht Zh Zt HP.
  destruct (columns_have_maxima s Hal Hn) as [m1 [m2 [H1 H2]]].
  pose proof (py_max_is_max _ _ Hh H1) as M1.
  pose proof (py_max_is_max _ _ Ht H2) as M2.
  pose proof (table_of_rows_of _ Hal) as Hd.
  assert (PH : Permutation (Harris_result (data_dict s)) (map r_harris rs')).
  { rewrite <- Hd at 1. cbn [table_of_rows Harris_result].
    apply Permutation_map. exact HP. }
  assert (PT : Permutation (Trump_result (data_dict s)) (map r_trump rs')).
  { rewrite <- Hd at 1. cbn [table_of_rows Trump_result].
    apply Permutation_map. exact HP. }
  set (s' := mkPollReader (raw_data s) (table_of_rows rs')).
  assert (Hal' : aligned (data_dict s')) by apply aligned_table_of_rows.
  assert (Hn' : row_count (data_dict s') <> 0%nat).
  { unfold row_count in *. cbn [s' data_dict table_of_rows Harris_result].
    rewrite <- (Permutation_length PH). exact Hn. }
  destruct (columns_have_maxima s' Hal' Hn') as [m1' [m2' [H1' H2']]].
  assert (M1' : is_max m1' (map r_harris rs')).
  { apply (py_max_is_max _ _ (Permutation_Forall PH Hh) H1'). }
  assert (M2' : is_max m2' (map r_trump rs')).
  { apply (py_max_is_max _ _ (Permutation_Forall PT Ht) H2'). }
  assert (E1 : m1' = m1).
  { apply (is_max_unique _ _ _ Zh); [| exact M1].
    apply (is_max_perm _ _ _ (Permutation_sym PH)). exact M1'. }
  assert (E2 : m2' = m2).
  { apply (is_max_unique _ _ _ Zt); [| exact M2].
    apply (is_max_perm _ _ _ (Permutation_sym PT)). exact M2'. }
  rewrite (highest_polling_candidate_run s m1 m2 H1 H2).
  rewrite (highest_polling_candidate_run s' m1' m2' H1' H2').
  rewrite E1, E2. reflexivity.
Qed.

(** ** The queries do not write *)

Section Pure.

Context {N : Number}.

Lemma highest_polling_candidate_pure (s : PollReader N) :
  fst (highest_polling_candidate s) = s.
Proof.
  unfold highest_polling_candidate, bind, get_col, lift, ret.
  destruct (py_max (Harris_result (data_dict s))); [| reflexivity].
  destruct (py_max (Trump_result (data_dict s))); [| reflexivity].
  destruct (greater _ _); [reflexivity |]. destruct (greater _ _); reflexivity.
Qed.

Lemma likely_voter_polling_average_pure (s : PollReader N) :
  fst (likely_voter_polling_average s) = s.
Proof.
  unfold likely_voter_polling_average, bind, get_col, lift, ret.
  destruct (rmap (py_index (Harris_result (data_dict s))) _) as [hv |]; [| reflexivity].
  destruct (rmap (py_index (Trump_result (data_dict s))) _) as [tv |]; [| reflexivity].
  destruct hv; [| destruct (py_div _ _); [| reflexivity]];
    (destruct tv; [| destruct (py_div _ _)]); reflexivity.
Qed.

Lemma polling_history_change_pure (s : PollReader N) :
  fst (polling_history_change s) = s.
Proof.
  unfold polling_history_change, bind, get_col, lift, ret.
  repeat (destruct (py_div _ _); [| reflexivity]). reflexivity.
Qed.

Lemma run_query_id (q : query) (s : PollReader N) : run_query q s = s.
Proof.
  destruct q; cbn [run_query].
  - apply highest_polling_candidate_pure.
  - apply likely_voter_polling_average_pure.
  - apply polling_history_change_pure.
Qed.

(** C8. Each of the three queries leaves the object, and so all six
    columns, as it found it, whatever it returns or raises; hence so does
    every sequence of queries. *)
Theorem queries_are_pure_reads (s : PollReader N) :
  fst (highest_polling_candidate s) = s /\
  fst (likely_voter_polling_average s) = s /\
  fst (polling_history_change s) = s /\
  (forall qs : list query, run_queries qs s = s) /\
  (forall qs : list query, data_dict (run_queries qs s) = data_dict s).
Proof.
  assert (H : forall qs : list query, run_queries qs s = s).
  { intros qs. unfold run_queries. induction qs as [| q qs IH]; cbn [fold_left].
    - reflexivity.
    - rewrite run_query_id. exact IH. }
  repeat split.
  - apply highest_polling_candidate_pure.
  - apply likely_voter_polling_average_pure.
  - apply polling_history_change_pure.
  - exact H.
  - intros qs. rewrite H. reflexivity.
Qed.

End Pure.

(** ** likely_voter_polling_average *)

Lemma len_app_one {A : Type} (l : list A) (x : A) : len (l ++ [x]) = len l + 1.
Proof. unfold len. rewrite length_app. cbn. lia. Qed.

Lemma py_index_middle {A : Type} (pre rest : list A) (c : A) :
  py_index (pre ++ c :: rest) (len pre) = Ok c.
Proof.
  unfold py_index. pose proof (len_nonneg pre) as Hp.
  destruct (Z.ltb_spec (len pre) 0); [lia |].
  assert (Hlen : len pre < len (pre ++ c :: rest)).
  { unfold len. rewrite length_app. cbn. lia. }
  destruct (Z.ltb_spec (len pre) 0); [lia |].
  destruct (Z.leb_spec (len (pre ++ c :: rest)) (len pre)); [lia |].
  cbn [orb]. unfold len at 1. rewrite Nat2Z.id.
  rewrite nth_error_app2 by lia. rewrite Nat.sub_diag. reflexivity.
Qed.

Lemma py_index_cases {A : Type} (l : list A) (i : Z) :
  (exists a, py_index l i = Ok a) \/ py_index l i = Raise IndexError.
Proof.
  unfold py_index. destruct (_ || _); [right; reflexivity |].
  destruct (nth_error _ _) as [a |]; [left; exists a; reflexivity | right; reflexivity].
Qed.

Lemma rmap_py_index_cases {A : Type} (col : list A) (idx : list Z) :
  (exists vs, rmap (py_index col) idx = Ok vs) \/
  rmap (py_index col) idx = Raise IndexError.
Proof.
  induction idx as [| i idx IH]; cbn [rmap].
  - left. exists []. reflexivity.
  - destruct (py_index_cases col i) as [[a ->] | ->]; cbn [rbind]; [| right; reflexivity].
    destruct IH as [[vs ->] | ->]; cbn [rbind].
    + left. exists (a :: vs). reflexivity.
    + right. reflexivity.
Qed.

Lemma py_index_out_of_range {A : Type} (l : list A) (i : Z) :
  len l <= i -> py_index l i = Raise IndexError.
Proof.
  intros H. unfold py_index. pose proof (len_nonneg l).
  destruct (Z.ltb_spec i 0); [lia |].
  destruct (Z.ltb_spec i 0); [lia |].
  destruct (Z.leb_spec (len l) i); [reflexivity | lia].
Qed.

Lemma rmap_py_index_raises {A : Type} (col : list A) (idx : list Z) (i : Z) :
  In i idx -> len col <= i -> rmap (py_index col) idx = Raise IndexError.
Proof.
  intros Hin Hi. induction idx as [| j idx IH]; [contradiction |].
  cbn [rmap]. destruct (py_index_cases col j) as [[a Ha] | Hr].
  - rewrite Ha. cbn [rbind]. destruct Hin as [-> | Hin].
    + rewrite (py_index_out_of_range col i Hi) in Ha. discriminate.
    + rewrite (IH Hin). reflexivity.
  - rewrite Hr. reflexivity.
Qed.

Lemma in_enumerate_from {A : Type} (l : list A) :
  forall (k i : Z) (x : A),
    In (i, x) (enumerate_from k l) <->
    k <= i /\ nth_error l (Z.to_nat (i - k)) = Some x.
Proof.
  induction l as [| y ys IH]; intros k i x; cbn [enumerate_from In].
  - split; [contradiction |]. intros [_ H]. destruct (Z.to_nat (i - k)); discriminate.
  - rewrite IH. split.
    + intros [E | [Hk Hn]].
      * injection E as <- <-. split; [lia |]. rewrite Z.sub_diag. reflexivity.
      * split; [lia |].
        replace (Z.to_nat (i - k)) with (S (Z.to_nat (i - (k + 1)))) by lia.
        exact Hn.
    + intros [Hk Hn]. destruct (Z.eq_dec i k) as [-> | Hne].
      * left. rewrite Z.sub_diag in Hn. cbn in Hn. congruence.
      * right. split; [lia |].
        replace (Z.to_nat (i - k)) with (S (Z.to_nat (i - (k + 1)))) in Hn by lia.
        exact Hn.
Qed.

(** The selected indices are those of the rows whose sample type is "LV". *)
Lemma in_lv_indices (col : list string) (i : Z) :
  In i (lv_indices col) <->
  0 <= i /\ nth_error col (Z.to_nat i) = Some "LV"%string.
Proof.
  unfold lv_indices, enumerate. rewrite in_map_iff. split.
  - intros [[j x] [E Hin]]. cbn in E. subst j.
    apply filter_In in Hin. destruct Hin as [Hin Hlv]. cbn in Hlv.
    apply String.eqb_eq in Hlv. subst x.
    apply in_enumerate_from in Hin. rewrite Z.sub_0_r in Hin. exact Hin.
  - intros [Hi Hn]. exists (i, "LV"%string). split; [reflexivity |].
    apply filter_In. split; [| reflexivity].
    apply in_enumerate_from. rewrite Z.sub_0_r. split; assumption.
Qed.

Section LikelyVoters.

Context {N : Number}.

(** Reading a column at the selected indices gives the values of the
    selected rows. *)
Lemma rmap_index_selected (st : list string) :
  forall (pre col : list (num N)),
    List.length st = List.length col ->
    rmap (py_index (pre ++ col))
         (map fst (filter (fun p => String.eqb (snd p) "LV") (enumerate_from (len pre) st))) =
    Ok (map snd (filter (fun p => String.eqb (fst p) "LV") (combine st col))).
Proof.
  induction st as [| x st' IH]; intros pre col Hlen.
  - reflexivity.
  - destruct col as [| c col']; [discriminate |].
    cbn [enumerate_from combine filter fst snd].
    injection Hlen as Hlen.
    pose proof (IH (pre ++ [c]) col' Hlen) as IH'.
    rewrite len_app_one, <- app_assoc in IH'. cbn [app] in IH'.
    destruct (String.eqb x "LV").
    + cbn [map rmap fst snd]. rewrite py_index_middle. cbn [rbind].
      rewrite IH'. reflexivity.
    + exact IH'.
Qed.

Lemma lv_values_read (d : DataDict N) (col : list (num N)) :
  List.length (sample_type d) = List.length col ->
  rmap (py_index col) (lv_indices (sample_type d)) = Ok (lv_values d col).
Proof.
  intros H. exact (rmap_index_selected (sample_type d) [] col H).
Qed.

Lemma lv_values_none (d : DataDict N) (col : list (num N)) :
  Forall (fun st => st <> "LV"%string) (sample_type d) -> lv_values d col = [].
Proof.
  unfold lv_values. generalize (sample_type d) as st. intros st. revert col.
  induction st as [| x st' IH]; intros col H; [reflexivity |].
  destruct col as [| c col']; [reflexivity |].
  inversion H as [| ? ? Hx Hst]; subst. cbn [combine filter fst].
  destruct (String.eqb_spec x "LV"); [contradiction |]. apply IH. exact Hst.
Qed.

(** The outcome of the query on an aligned table. *)
Lemma likely_voter_polling_average_run (s : PollReader N) :
  aligned (data_dict s) ->
  likely_voter_polling_average s =
  (s, Ok (average_of (lv_values (data_dict s) (Harris_result (data_dict s))),
          average_of (lv_values (data_dict s) (Trump_result (data_dict s))))).
Proof.
  intros [_ [_ [_ [Hst Ht]]]].
  unfold likely_voter_polling_average, bind, get_col, lift, ret.
  rewrite (lv_values_read (data_dict s) (Harris_result (data_dict s))) by exact Hst.
  rewrite (lv_values_read (data_dict s) (Trump_result (data_dict s))) by congruence.
  rewrite !average_run. reflexivity.
Qed.

(** X14. On an aligned table, [likely_voter_polling_average] selects the
    indices of the rows whose sample type is exactly the string "LV" and
    returns, for Harris and for Trump, the sum of the results of these
    rows in their order divided by their number; when no row is selected
    it returns (0, 0); it never raises. *)
Theorem likely_voter_polling_average_selection (s : PollReader N) :
  aligned (data_dict s) ->
  let d := data_dict s in
  (forall i : Z,
     In i (lv_indices (sample_type d)) <->
     0 <= i /\ nth_error (sample_type d) (Z.to_nat i) = Some "LV"%string) /\
  likely_voter_polling_average s =
  (s, Ok (average_of (lv_values d (Harris_result d)),
          average_of (lv_values d (Trump_result d)))) /\
  (Forall (fun st => st <> "LV"%string) (sample_type d) ->
   likely_voter_polling_average s = (s, Ok (of_int 0, of_int 0))).
Proof.
  intros Hal d. split; [| split].
  - intros i. apply in_lv_indices.
  - apply likely_voter_polling_average_run. exact Hal.
  - intros Hno. rewrite (likely_voter_polling_average_run s Hal). fold d.
    rewrite !(lv_values_none d) by exact Hno. reflexivity.
Qed.

Lemma lv_values_rows (f : Row N -> num N) (rs : list (Row N)) :
  lv_values (table_of_rows rs) (map f rs) = map f (filter is_lv_row rs).
Proof.
  unfold lv_values, table_of_rows. cbn [sample_type].
  induction rs as [| r rs IH]; [reflexivity |].
  cbn [map combine filter fst]. unfold is_lv_row at 1.
  destruct (String.eqb (r_sample_type r) "LV"); cbn [map snd]; rewrite IH; reflexivity.
Qed.

Lemma filter_is_lv_row_idem (rs : list (Row N)) :
  filter is_lv_row (filter is_lv_row rs) = filter is_lv_row rs.
Proof.
  induction rs as [| r rs IH]; [reflexivity |].
  cbn [filter]. destruct (is_lv_row r) eqn:E; [| exact IH].
  cbn [filter]. rewrite E, IH. reflexivity.
Qed.

Lemma likely_voter_polling_average_rows (raw : list string) (rs : list (Row N)) :
  likely_voter_polling_average (mkPollReader raw (table_of_rows rs)) =
  (mkPollReader raw (table_of_rows rs),
   Ok (average_of (map r_harris (filter is_lv_row rs)),
       average_of (map r_trump (filter is_lv_row rs)))).
Proof.
  rewrite likely_voter_polling_average_run by apply aligned_table_of_rows.
  cbn [data_dict].
  change (Harris_result (table_of_rows rs)) with (map r_harris rs).
  change (Trump_result (table_of_rows rs)) with (map r_trump rs).
  rewrite !lv_values_rows. reflexivity.
Qed.

(** X9. The answer of [likely_voter_polling_average] on the table of the
    rows [rs] is, for Harris and for Trump, the sum of the results of the
    rows of [rs] whose sample type is "LV", in their order, divided by
    their number (0 for none); so it is the answer on the table of these
    rows alone: the rows of other sample types, and all columns but the
    two results, have no part in it. *)
Theorem likely_voter_polling_average_lv_rows_only
    (raw raw' : list string) (rs : list (Row N)) :
  snd (likely_voter_polling_average (mkPollReader raw (table_of_rows rs))) =
  Ok (average_of (map r_harris (filter is_lv_row rs)),
      average_of (map r_trump (filter is_lv_row rs))) /\
  snd (likely_voter_polling_average
         (mkPollReader raw' (table_of_rows (filter is_lv_row rs)))) =
  snd (likely_voter_polling_average (mkPollReader raw (table_of_rows rs))).
Proof.
  rewrite !likely_voter_polling_average_rows. cbn [snd].
  rewrite filter_is_lv_row_idem. split; reflexivity.
Qed.

(** X8. On a table that is not aligned, [likely_voter_polling_average]
    raises [IndexError] as soon as a row of sample type "LV" has an index
    beyond the end of the Harris or of the Trump column, and leaves the
    object as it was. *)
Theorem likely_voter_polling_average_short_column (s : PollReader N) (i : Z) :
  In i (lv_indices (sample_type (data_dict s))) ->
  len (Harris_result (data_dict s)) <= i \/ len (Trump_result (data_dict s)) <= i ->
  likely_voter_polling_average s = (s, Raise IndexError).
Proof.
  intros Hin Hshort.
  unfold likely_voter_polling_average, bind, get_col, lift, ret.
  destruct (rmap_py_index_cases (Harris_result (data_dict s))
              (lv_indices (sample_type (data_dict s)))) as [[hv Hh] | Hh].
  - rewrite Hh. destruct Hshort as [Hs | Hs].
    + rewrite (rmap_py_index_raises _ _ i Hin Hs) in Hh. discriminate.
    + rewrite (rmap_py_index_raises _ _ i Hin Hs). reflexivity.
  - rewrite Hh. reflexivity.
Qed.

(** ** The exceptions of the queries *)

(** X12. Whatever the table, aligned or not, [highest_polling_candidate]
    raises nothing but [ValueError], [likely_voter_polling_average] nothing
    but [IndexError] (its division is guarded), and
    [polling_history_change] nothing but [ZeroDivisionError]. *)
Theorem query_exceptions (s : PollReader N) :
  match snd (highest_polling_candidate s) with
  | Ok _ => True
  | Raise e => e = ValueError
  end /\
  match snd (likely_voter_polling_average s) with
  | Ok _ => True
  | Raise e => e = IndexError
  end /\
  match snd (polling_history_change s) with
  | Ok _ => True
  | Raise e => e = ZeroDivisionError
  end.
Proof.
  split; [| split].
  - unfold highest_polling_candidate, bind, get_col, lift, ret.
    destruct (Harris_result (data_dict s)) as [| x xs]; cbn [py_max snd]; [reflexivity |].
    destruct (Trump_result (data_dict s)) as [| y ys]; cbn [py_max snd]; [reflexivity |].
    destruct (greater _ _); [exact I |]. destruct (greater _ _); exact I.
  - unfold likely_voter_polling_average, bind, get_col, lift, ret.
    destruct (rmap_py_index_cases (Harris_result (data_dict s))
                (lv_indices (sample_type (data_dict s)))) as [[hv ->] | ->];
      [| reflexivity].
    destruct (rmap_py_index_cases (Trump_result (data_dict s))
                (lv_indices (sample_type (data_dict s)))) as [[tv ->] | ->];
      [| reflexivity].
    rewrite !average_run. exact I.
  - unfold polling_history_change, bind, get_col, lift, ret.
    repeat match goal with
           | |- context [py_div ?x ?n] =>
               unfold py_div at 1; destruct (n =? 0); [reflexivity |]
           end.
    exact I.
Qed.

(** ** The windows of polling_history_change *)

(** X5. The two slices that [polling_history_change] takes are the two
    ends of the column and never overlap: the column is the latest window,
    then the rows that no window covers, then the earliest window; both
    windows have the same size; and the uncovered rows are [n - 60] for
    [n >= 60] rows and [n mod 2] (none, or the middle row) otherwise. *)
Theorem history_windows_segment_column (l : list (num N)) :
  let n := len l in
  let latest := py_slice l (fst (history_slices n)) in
  let earliest := py_slice l (snd (history_slices n)) in
  exists middle : list (num N),
    l = latest ++ middle ++ earliest /\
    len latest = len earliest /\
    (60 <= n -> len latest = 30 /\ len middle = n - 60) /\
    (n < 60 -> len latest = n / 2 /\ len middle = n mod 2).
Proof.
  intros n latest earliest.
  set (m := List.length l). set (k := window_size m).
  pose proof (window_size_le m) as Hk. fold k in Hk.
  assert (Hl : latest = firstn k l).
  { unfold latest, n. apply (latest_slice_firstn l m). reflexivity. }
  assert (He : earliest = skipn (m - k) l).
  { unfold earliest, n. apply (earliest_slice_skipn l m). reflexivity. }
  assert (H2k : (2 * k <= m)%nat).
  { unfold k, window_size. destruct (Nat.leb_spec 60 m); [lia |].
    pose proof (Nat.div_mod_eq m 2). lia. }
  exists (firstn (m - 2 * k) (skipn k l)).
  assert (Hlat : len latest = Z.of_nat k).
  { rewrite Hl. unfold len. rewrite length_firstn. fold m. lia. }
  assert (Hear : len earliest = Z.of_nat k).
  { rewrite He. unfold len. rewrite length_skipn. fold m. lia. }
  assert (Hmid : len (firstn (m - 2 * k) (skipn k l)) = Z.of_nat (m - 2 * k)).
  { unfold len. rewrite length_firstn, length_skipn. fold m. lia. }
  split; [| split; [| split]].
  - rewrite Hl, He.
    replace (skipn (m - k) l) with (skipn (m - 2 * k) (skipn k l))
      by (rewrite skipn_skipn; f_equal; lia).
    rewrite (firstn_skipn (m - 2 * k) (skipn k l)).
    symmetry. apply firstn_skipn.
  - congruence.
  - intros Hn. rewrite Hlat, Hmid. unfold n, len in Hn. fold m in Hn.
    unfold n, len. fold m.
    unfold k, window_size in *. destruct (Nat.leb_spec 60 m); lia.
  - intros Hn. rewrite Hlat, Hmid. unfold n, len in Hn. fold m in Hn.
    unfold n, len. fold m.
    unfold k, window_size in *. destruct (Nat.leb_spec 60 m); [lia |].
    rewrite Nat2Z.inj_sub by lia. rewrite Nat2Z.inj_mul, Nat2Z.inj_div.
    change (Z.of_nat 2) with 2.
    pose proof (Z.div_mod (Z.of_nat m) 2). lia.
Qed.

Lemma firstn_exact {A : Type} (a b : list A) (k : nat) :
  List.length a = k -> firstn k (a ++ b) = a.
Proof.
  intros <-. rewrite firstn_app, Nat.sub_diag, firstn_all. cbn. apply app_nil_r.
Qed.

Lemma skipn_exact {A : Type} (a b : list A) (k : nat) :
  List.length a = k -> skipn k (a ++ b) = b.
Proof.
  intros <-. rewrite skipn_app, Nat.sub_diag, skipn_all. reflexivity.
Qed.

(** X6. The history change reads only the two ends of the columns: when
    the Harris column is [hl ++ hm ++ he] and the Trump column is
    [tl ++ tm ++ te], with [hl], [he], [tl], [te] of the size of a window,
    the result is (mean hl - mean he, mean tl - mean te), the mean of a
    window being the sum of its values in their order divided by their
    number, whatever the rows [hm] and [tm] in between and whatever the
    other four columns. *)
Theorem polling_history_change_reads_ends
    (s : PollReader N) (hl hm he tl tm te : list (num N)) :
  let k := window_size (row_count (data_dict s)) in
  Harris_result (data_dict s) = hl ++ hm ++ he ->
  Trump_result (data_dict s) = tl ++ tm ++ te ->
  List.length hl = k -> List.length he = k ->
  List.length tl = k -> List.length te = k ->
  List.length tm = List.length hm ->
  k <> 0%nat ->
  polling_history_change s =
  (s, Ok (minus (mean_of hl) (mean_of he), minus (mean_of tl) (mean_of te))).
Proof.
  intros k HH HT Hhl Hhe Htl Hte Htm Hk.
  set (n := row_count (data_dict s)) in *.
  assert (Hn : List.length (Harris_result (data_dict s)) = n) by reflexivity.
  assert (Hnh : n = (k + List.length hm + k)%nat).
  { rewrite <- Hn, HH, !length_app. lia. }
  assert (Ht : List.length (Trump_result (data_dict s)) = n).
  { rewrite HT, !length_app. lia. }
  rewrite (polling_history_change_windows s Ht). fold n k.
  destruct (Nat.eqb_spec k 0) as [E | _]; [contradiction |].
  rewrite <- (firstn_rows_at (Harris_result (data_dict s)) k) by lia.
  rewrite <- (firstn_rows_at (Trump_result (data_dict s)) k) by lia.
  rewrite <- (skipn_rows_at (Harris_result (data_dict s)) n k Hn) by lia.
  rewrite <- (skipn_rows_at (Trump_result (data_dict s)) n k Ht) by lia.
  rewrite HH, HT.
  rewrite (firstn_exact hl _ k Hhl), (firstn_exact tl _ k Htl).
  rewrite !app_assoc.
  rewrite (skipn_exact (hl ++ hm) he (n - k)) by (rewrite length_app; lia).
  rewrite (skipn_exact (tl ++ tm) te (n - k)) by (rewrite length_app; lia).
  reflexivity.
Qed.

End LikelyVoters.

(** ** The highest result over both columns *)

Lemma is_max_app_l (m : PrimFloat.float) (l l' : list PrimFloat.float) :
  is_max m l -> Forall (fun x => PrimFloat.leb x m = true) l' -> is_max m (l ++ l').
Proof.
  intros [Hin Hall] Hall'. split.
  - apply in_or_app. left. exact Hin.
  - apply Forall_app. split; assumption.
Qed.

Lemma is_max_app_r (m : PrimFloat.float) (l l' : list PrimFloat.float) :
  is_max m l' -> Forall (fun x => PrimFloat.leb x m = true) l -> is_max m (l ++ l').
Proof.
  intros [Hin Hall] Hall'. split.
  - apply in_or_app. right. exact Hin.
  - apply Forall_app. split; assumption.
Qed.

Lemma Forall_leb_trans (m m' : PrimFloat.float) (l : list PrimFloat.float) :
  PrimFloat.leb m m' = true ->
  Forall (fun x => PrimFloat.leb x m = true) l ->
  Forall (fun x => PrimFloat.leb x m' = true) l.
Proof.
  intros Hle H. rewrite Forall_forall in *. intros x Hx.
  apply float_leb_trans with m; [apply H; exact Hx | exact Hle].
Qed.

Lemma Forall_leb_ltb (m m' : PrimFloat.float) (l : list PrimFloat.float) :
  PrimFloat.ltb m m' = true ->
  Forall (fun x => PrimFloat.leb x m = true) l ->
  Forall (fun x => PrimFloat.ltb x m' = true) l.
Proof.
  intros Hlt H. rewrite Forall_forall in *. intros x Hx.
  apply float_leb_ltb_trans with m; [apply H; exact Hx | exact Hlt].
Qed.

(** X7. When both result columns are non-empty and hold no NaN, the
    percentage that [highest_polling_candidate] reports is that of the
    highest result of the two columns together, under the name of the
    column that holds it, or under "EVEN" when both columns reach it. *)
Theorem highest_polling_candidate_overall_max (s : PollReader binary64) :
  Harris_result (data_dict s) <> [] ->
  Trump_result (data_dict s) <> [] ->
  Forall not_nan (Harris_result (data_dict s)) ->
  Forall not_nan (Trump_result (data_dict s)) ->
  exists (label pct : string) (m : PrimFloat.float),
    highest_polling_candidate s = (s, Ok (label ++ pct ++ "%")%string) /\
    writes_1f (m * 100)%float pct /\
    is_max m (Harris_result (data_dict s) ++ Trump_result (data_dict s)) /\
    ((label = "Harris "%string /\ In m (Harris_result (data_dict s)) /\
      Forall (fun x => PrimFloat.ltb x m = true) (Trump_result (data_dict s))) \/
     (label = "Trump "%string /\ In m (Trump_result (data_dict s)) /\
      Forall (fun x => PrimFloat.ltb x m = true) (Harris_result (data_dict s))) \/
     (label = "EVEN "%string /\ In m (Harris_result (data_dict s)) /\
      exists m', In m' (Trump_result (data_dict s)) /\ PrimFloat.eqb m' m = true)).
Proof.
  intros Hh Ht Nh Nt.
  destruct (py_max_nonempty (N := binary64) _ Hh) as [m1 H1].
  destruct (py_max_nonempty (N := binary64) _ Ht) as [m2 H2].
  rewrite (highest_polling_candidate_floats s m1 m2 H1 H2).
  pose proof (py_max_is_max _ _ Nh H1) as M1.
  pose proof (py_max_is_max _ _ Nt H2) as M2.
  pose proof (is_max_not_nan _ _ Nh M1) as N1.
  pose proof (is_max_not_nan _ _ Nt M2) as N2.
  destruct (PrimFloat.ltb m2 m1) eqn:E1.
  - exists "Harris "%string, (float_fmt_1f (m1 * 100)%float), m1.
    split; [reflexivity |]. split; [apply float_fmt_1f_writes |]. split.
    + apply is_max_app_l; [exact M1 |].
      apply Forall_leb_trans with m2; [apply float_ltb_leb; exact E1 | apply M2].
    + left. split; [reflexivity |]. split; [apply M1 |].
      apply Forall_leb_ltb with m2; [exact E1 | apply M2].
  - pose proof (float_not_ltb_leb _ _ N2 N1 E1) as L1.
    destruct (PrimFloat.ltb m1 m2) eqn:E2.
    + exists "Trump "%string, (float_fmt_1f (m2 * 100)%float), m2.
      split; [reflexivity |]. split; [apply float_fmt_1f_writes |]. split.
      * apply is_max_app_r; [exact M2 |].
        apply Forall_leb_trans with m1; [exact L1 | apply M1].
      * right. left. split; [reflexivity |]. split; [apply M2 |].
        apply Forall_leb_ltb with m1; [exact E2 | apply M1].
    + pose proof (float_not_ltb_leb _ _ N1 N2 E2) as L2.
      exists "EVEN "%string, (float_fmt_1f (m1 * 100)%float), m1.
      split; [reflexivity |]. split; [apply float_fmt_1f_writes |]. split.
      * apply is_max_app_l; [exact M1 |].
        apply Forall_leb_trans with m2; [exact L2 | apply M2].
      * right. right. split; [reflexivity |]. split; [apply M1 |].
        exists m2. split; [apply M2 | apply float_leb_antisym_eqb; assumption].
Qed.

(** ** build_data_dict *)

Lemma py_index_nth {A : Type} (l : list A) (i : nat) (z : Z) :
  z = Z.of_nat i ->
  py_index l z = match nth_error l i with
                 | Some a => Ok a
                 | None => Raise IndexError
                 end.
Proof.
  intros ->. unfold py_index.
  destruct (Z.ltb_spec (Z.of_nat i) 0); [lia |].
  destruct (Z.ltb_spec (Z.of_nat i) 0); [lia |]. cbn [orb].
  rewrite Nat2Z.id. unfold len.
  destruct (Z.leb_spec (Z.of_nat (List.length l)) (Z.of_nat i)) as [Hle | Hlt].
  - assert (Hn : nth_error l i = None) by (apply nth_error_None; lia).
    rewrite Hn. reflexivity.
  - reflexivity.
Qed.

Lemma py_index_last {A : Type} (l : list A) (d : A) :
  l <> [] -> py_index l (-1) = Ok (last l d).
Proof.
  intros Hne. destruct (exists_last Hne) as [pre [x E]]. subst l.
  rewrite last_last. unfold py_index. cbn [Z.ltb Z.compare].
  replace (-1 + len (pre ++ [x])) with (len pre) by (rewrite len_app_one; lia).
  pose proof (len_nonneg pre) as Hp. rewrite len_app_one.
  destruct (Z.ltb_spec (len pre) 0); [lia |].
  destruct (Z.leb_spec (len pre + 1) (len pre)); [lia |]. cbn [orb].
  unfold len. rewrite Nat2Z.id, nth_error_app2, Nat.sub_diag by lia. reflexivity.
Qed.

Section LoaderFacts.

Context {N : Number}.
Variable py_int : string -> option Z.
Variable py_float : string -> option (num N).

(** The loop body either raises, and then has appended nothing, or
    appends the values of the line to all six columns. *)
Lemma process_line_parse (line : string) (s : PollReader N) :
  process_line py_int py_float line s =
  match parse_line py_int py_float line with
  | Ok r => (mkPollReader (raw_data s) (push_row r (data_dict s)), Ok tt)
  | Raise e => (s, Raise e)
  end.
Proof.
  unfold process_line, parse_line, fields, bind, lift.
  repeat match goal with
         | |- context [rbind ?r _] =>
             destruct r; cbn [rbind]; [| reflexivity]
         end.
  reflexivity.
Qed.

(** What the loop body computes, and when it raises. *)
Lemma parse_line_spec (line : string) :
  match parse_line py_int py_float line with
  | Ok r =>
      ~ malformed py_int py_float line /\
      r_month r = month_of line /\
      Some (r_date r) = date_of py_int line /\
      Some (r_sample r) = sample_size_of py_int line /\
      r_sample_type r = sample_type_of line /\
      Some (r_harris r) = harris_of py_float line /\
      Some (r_trump r) = trump_of py_float line
  | Raise e =>
      malformed py_int py_float line /\ (e = IndexError \/ e = ValueError)
  end.
Proof.
  unfold parse_line, malformed, month_of, date_of, sample_size_of, sample_type_of,
    harris_of, trump_of, sample_tokens, field, int, float.
  rewrite (py_index_nth (fields line) 0 0 eq_refl),
          (py_index_nth (fields line) 1 1 eq_refl),
          (py_index_nth (fields line) 2 2 eq_refl),
          (py_index_nth (fields line) 3 3 eq_refl),
          (py_index_nth (fields line) 4 4 eq_refl).
  destruct (fields line) as [| f0 [| f1 [| f2 [| f3 [| f4 rest]]]]];
    cbn [nth_error nth rbind List.length].
  - split; [left; lia | left; reflexivity].
  - split; [left; lia | left; reflexivity].
  - destruct (py_int f1); cbn [rbind].
    + split; [left; lia | left; reflexivity].
    + split; [left; lia | right; reflexivity].
  - destruct (py_int f1) eqn:E1; cbn [rbind];
      [| split; [left; lia | right; reflexivity]].
    destruct (split_ws f2) as [| b0 bs] eqn:Eb.
    { split; [left; lia | left; reflexivity]. }
    rewrite (py_index_nth (b0 :: bs) 0 0 eq_refl). cbn [nth_error rbind].
    destruct (py_int b0); cbn [rbind];
      [| split; [left; lia | right; reflexivity]].
    rewrite (py_index_last (b0 :: bs) ""%string) by discriminate. cbn [rbind].
    split; [left; lia | left; reflexivity].
  - destruct (py_int f1) eqn:E1; cbn [rbind];
      [| split; [left; lia | right; reflexivity]].
    destruct (split_ws f2) as [| b0 bs] eqn:Eb.
    { split; [left; lia | left; reflexivity]. }
    rewrite (py_index_nth (b0 :: bs) 0 0 eq_refl). cbn [nth_error rbind].
    destruct (py_int b0); cbn [rbind];
      [| split; [left; lia | right; reflexivity]].
    rewrite (py_index_last (b0 :: bs) ""%string) by discriminate. cbn [rbind].
    destruct (py_float f3); cbn [rbind];
      split; solve [left; lia | left; reflexivity | right; reflexivity].
  - destruct (py_int f1) eqn:E1; cbn [rbind];
      [| split; [right; left; reflexivity | right; reflexivity]].
    destruct (split_ws f2) as [| b0 bs] eqn:Eb.
    { cbn [rbind]. rewrite (py_index_nth [] 0 0 eq_refl). cbn [nth_error rbind].
      split; [right; right; left; reflexivity | left; reflexivity]. }
    rewrite (py_index_nth (b0 :: bs) 0 0 eq_refl). cbn [nth_error rbind hd].
    destruct (py_int b0) eqn:E2; cbn [rbind];
      [| split; [right; right; right; left; reflexivity | right; reflexivity]].
    rewrite (py_index_last (b0 :: bs) ""%string) by discriminate. cbn [rbind].
    destruct (py_float f3) eqn:E3; cbn [rbind];
      [| split; [right; right; right; right; left; reflexivity | right; reflexivity]].
    destruct (py_float f4) eqn:E4; cbn [rbind];
      [| split; [right; right; right; right; right; reflexivity | right; reflexivity]].
    cbn [r_month r_date r_sample r_sample_type r_harris r_trump].
    split; [| repeat split; reflexivity].
    intros [H | [H | [H | [H | [H | H]]]]]; try discriminate.
    cbn in H. lia.
Qed.

(** The loop appends the rows of the data lines up to the first line
    that raises, and stops there. *)
Lemma build_loop_load (lines : list string) :
  forall s : PollReader N,
    build_loop py_int py_float lines s =
    (mkPollReader (raw_data s)
       (push_rows (fst (load_rows py_int py_float (filter nonempty (map strip lines))))
                  (data_dict s)),
     snd (load_rows py_int py_float (filter nonempty (map strip lines)))).
Proof.
  induction lines as [| line rest IH]; intros s.
  - destruct s. reflexivity.
  - cbn [build_loop map filter].
    destruct (nonempty (strip line)); cbn [negb].
    + unfold bind. rewrite process_line_parse. cbn [load_rows].
      destruct (parse_line py_int py_float (strip line)) as [r | e].
      * rewrite IH. cbn [raw_data data_dict].
        destruct (load_rows py_int py_float _) as [rs o]. reflexivity.
      * destruct s. reflexivity.
    + apply IH.
Qed.

Lemma build_data_dict_load (raw : list string) (d : DataDict N) :
  build_data_dict py_int py_float (mkPollReader raw d) =
  (mkPollReader raw (push_rows (fst (load_rows py_int py_float (data_lines raw))) d),
   snd (load_rows py_int py_float (data_lines raw))).
Proof.
  unfold build_data_dict, bind, get_raw. cbn [raw_data].
  rewrite build_loop_load. reflexivity.
Qed.

(** The rows of a successful loop are those of all the lines. *)
Lemma load_rows_ok (lines : list string) :
  forall rs : list (Row N),
    load_rows py_int py_float lines = (rs, Ok tt) ->
    Forall2 (fun line r => parse_line py_int py_float line = Ok r) lines rs.
Proof.
  induction lines as [| line rest IH]; intros rs H; cbn [load_rows] in H.
  - injection H as <-. constructor.
  - destruct (parse_line py_int py_float line) as [r | e] eqn:E; [| discriminate].
    destruct (load_rows py_int py_float rest) as [rs' o].
    injection H as <- ->. constructor; [exact E | apply IH; reflexivity].
Qed.

(** The rows of a loop that raises are those of the lines before the
    first line that raises. *)
Lemma load_rows_raise (lines : list string) :
  forall (rs : list (Row N)) (e : exn),
    load_rows py_int py_float lines = (rs, Raise e) ->
    exists pre bad post,
      lines = pre ++ bad :: post /\
      Forall2 (fun line r => parse_line py_int py_float line = Ok r) pre rs /\
      parse_line py_int py_float bad = Raise e.
Proof.
  induction lines as [| line rest IH]; intros rs e H; cbn [load_rows] in H.
  - discriminate.
  - destruct (parse_line py_int py_float line) as [r | e'] eqn:E.
    + destruct (load_rows py_int py_float rest) as [rs' o].
      injection H as <- ->.
      destruct (IH rs' e eq_refl) as [pre [bad [post [Hl [Hpre Hbad]]]]].
      exists (line :: pre), bad, post. split; [rewrite Hl; reflexivity |].
      split; [constructor; assumption | exact Hbad].
    + injection H as <- <-. exists [], line, rest.
      split; [reflexivity |]. split; [constructor | exact E].
Qed.

Lemma load_rows_total (lines : list string) :
  exists rs o, load_rows py_int py_float lines = (rs, o) /\
               (o = Ok tt \/ exists e, o = Raise e).
Proof.
  destruct (load_rows py_int py_float lines) as [rs [[] | e]].
  - exists rs, (Ok tt). split; [reflexivity | left; reflexivity].
  - exists rs, (Raise e). split; [reflexivity | right; exists e; reflexivity].
Qed.

(** The table of the parsed rows holds the values of their lines. *)
Lemma parsed_rows_hold (lines : list string) (rs : list (Row N)) :
  Forall2 (fun line r => parse_line py_int py_float line = Ok r) lines rs ->
  holds_lines py_int py_float (table_of_rows rs) lines /\
  Forall (fun line => ~ malformed py_int py_float line) lines /\
  List.length rs = List.length lines.
Proof.
  induction 1 as [| line r lines rs Hp _ IH].
  - repeat split. constructor.
  - destruct IH as [[Hm [Hd [Hs [Hst [Hh Ht]]]]] [Hall Hlen]].
    pose proof (parse_line_spec line) as Hspec. rewrite Hp in Hspec.
    destruct Hspec as [Hwf [Em [Ed [Es [Est [Eh Et]]]]]].
    unfold holds_lines, table_of_rows in *.
    cbn [month date sample sample_type Harris_result Trump_result map] in *.
    repeat split; try congruence.
    + constructor; assumption.
    + cbn. congruence.
Qed.

End LoaderFacts.

Lemma push_rows_columns {N : Number} (rs : list (Row N)) :
  forall d : DataDict N,
    push_rows rs d =
    mkDataDict (month d ++ map r_month rs) (date d ++ map r_date rs)
               (sample d ++ map r_sample rs) (sample_type d ++ map r_sample_type rs)
               (Harris_result d ++ map r_harris rs) (Trump_result d ++ map r_trump rs).
Proof.
  unfold push_rows. induction rs as [| r rs IH]; intros d.
  - destruct d. cbn. rewrite !app_nil_r. reflexivity.
  - cbn [fold_left map]. rewrite IH. unfold push_row.
    cbn [month date sample sample_type Harris_result Trump_result].
    rewrite <- !app_assoc. reflexivity.
Qed.

Lemma push_rows_empty {N : Number} (rs : list (Row N)) : push_rows rs empty_dict = table_of_rows rs.
Proof. rewrite push_rows_columns. reflexivity. Qed.

(** C7. When the load of a file succeeds on a fresh object, the six columns
    have one length, the number of data lines of the file, and each column
    holds, in the order of the data lines (header discarded, blank lines
    skipped), the values of these lines. *)
Theorem build_data_dict_columns
    {N : Number} (py_int : string -> option Z) (py_float : string -> option (num N))
    (raw : list string) (s' : PollReader N) :
  build_data_dict py_int py_float (init raw) = (s', Ok tt) ->
  aligned (data_dict s') /\
  row_count (data_dict s') = List.length (data_lines raw) /\
  holds_lines py_int py_float (data_dict s') (data_lines raw).
Proof.
  unfold init. rewrite build_data_dict_load. intros H.
  destruct (load_rows py_int py_float (data_lines raw)) as [rs o] eqn:E.
  cbn [fst snd] in H. injection H as <- ->. cbn [data_dict].
  rewrite push_rows_empty.
  destruct (parsed_rows_hold py_int py_float _ _ (load_rows_ok py_int py_float _ _ E))
    as [Hhold [_ Hlen]].
  destruct (aligned_table_of_rows rs) as [Hal Hrc].
  split; [exact Hal |]. split; [congruence | exact Hhold].
Qed.

(** C2 (amended). When a data line of the file has fewer than five fields,
    a sample field without a token, or a date, sample size, Harris or Trump
    field that does not convert, the load raises the built-in [IndexError]
    or [ValueError] at the first such line; the lines before it have been
    stored, aligned and in order, in the six columns, and nothing of that
    line or of the lines after it has. *)
Theorem build_data_dict_first_malformed_line
    {N : Number} (py_int : string -> option Z) (py_float : string -> option (num N))
    (raw : list string) :
  (exists line, In line (data_lines raw) /\ malformed py_int py_float line) ->
  exists (pre : list string) (bad : string) (post : list string) (e : exn) (d : DataDict N),
    data_lines raw = pre ++ bad :: post /\
    Forall (fun line => ~ malformed py_int py_float line) pre /\
    malformed py_int py_float bad /\
    (e = IndexError \/ e = ValueError) /\
    build_data_dict py_int py_float (init raw) = (mkPollReader raw d, Raise e) /\
    aligned d /\
    row_count d = List.length pre /\
    holds_lines py_int py_float d pre.
Proof.
  intros [line [Hin Hbad]].
  unfold init. rewrite build_data_dict_load.
  destruct (load_rows py_int py_float (data_lines raw)) as [rs [[] | e]] eqn:E.
  - exfalso.
    destruct (parsed_rows_hold py_int py_float _ _ (load_rows_ok py_int py_float _ _ E))
      as [_ [Hall _]].
    rewrite Forall_forall in Hall. exact (Hall line Hin Hbad).
  - destruct (load_rows_raise py_int py_float _ _ _ E) as [pre [bad [post [Hl [Hpre Hraise]]]]].
    destruct (parsed_rows_hold py_int py_float _ _ Hpre) as [Hhold [Hall Hlen]].
    pose proof (parse_line_spec py_int py_float bad) as Hspec. rewrite Hraise in Hspec.
    destruct Hspec as [Hmal He].
    destruct (aligned_table_of_rows rs) as [Hal Hrc].
    exists pre, bad, post, e, (table_of_rows rs). cbn [fst snd].
    rewrite push_rows_empty.
    repeat split; try assumption; try reflexivity; try apply Hal; try apply Hhold.
    congruence.
Qed.

(** ** build_data_dict on an object that already holds rows *)

Lemma push_rows_dict_app {N : Number} (rs : list (Row N)) (d : DataDict N) :
  push_rows rs d = dict_app d (table_of_rows rs).
Proof. rewrite push_rows_columns. reflexivity. Qed.

Lemma aligned_dict_app {N : Number} (d1 d2 : DataDict N) :
  aligned d1 -> aligned d2 ->
  aligned (dict_app d1 d2) /\
  row_count (dict_app d1 d2) = (row_count d1 + row_count d2)%nat.
Proof.
  unfold aligned, row_count, dict_app.
  cbn [month date sample sample_type Harris_result Trump_result].
  intros (H1 & H2 & H3 & H4 & H5) (G1 & G2 & G3 & G4 & G5).
  rewrite !length_app. repeat split; congruence.
Qed.

(** X1. [build_data_dict] keeps the six columns aligned and keeps every
    row: on an object whose columns are aligned, whether the load returns
    or raises, the table afterwards is the old table followed by an
    aligned table of added rows, so the old rows stay where they were and
    the columns stay aligned; and the lines read from the file are left as
    they were. *)
Theorem build_data_dict_keeps_alignment
    {N : Number} (py_int : string -> option Z) (py_float : string -> option (num N))
    (s : PollReader N) :
  aligned (data_dict s) ->
  exists added : DataDict N,
    aligned added /\
    data_dict (fst (build_data_dict py_int py_float s)) = dict_app (data_dict s) added /\
    aligned (data_dict (fst (build_data_dict py_int py_float s))) /\
    row_count (data_dict (fst (build_data_dict py_int py_float s))) =
    (row_count (data_dict s) + row_count added)%nat /\
    raw_data (fst (build_data_dict py_int py_float s)) = raw_data s.
Proof.
  intros Hal. destruct s as [raw d]. rewrite build_data_dict_load.
  cbn [fst data_dict raw_data] in *. rewrite push_rows_dict_app.
  set (added := table_of_rows (fst (load_rows py_int py_float (data_lines raw)))).
  assert (Hadd : aligned added) by apply aligned_table_of_rows.
  destruct (aligned_dict_app d added Hal Hadd) as [Ha Hr].
  exists added. split; [exact Hadd |]. split; [reflexivity |].
  split; [exact Ha |]. split; [exact Hr | reflexivity].
Qed.

(** X2. [build_data_dict] does not clear the table: run on an object that
    already holds rows, it has the outcome of a load of the same lines on
    a fresh object and leaves the old rows followed by the rows of that
    load; so a second load after a successful one stores every row twice. *)
Theorem build_data_dict_appends
    {N : Number} (py_int : string -> option Z) (py_float : string -> option (num N)) (s : PollReader N) :
  let fresh := build_data_dict py_int py_float (init (raw_data s)) in
  build_data_dict py_int py_float s =
  (mkPollReader (raw_data s) (dict_app (data_dict s) (data_dict (fst fresh))), snd fresh) /\
  (data_dict s = data_dict (fst fresh) ->
   build_data_dict py_int py_float s =
   (mkPollReader (raw_data s) (dict_app (data_dict s) (data_dict s)), snd fresh)).
Proof.
  intros fresh.
  assert (H : build_data_dict py_int py_float s =
              (mkPollReader (raw_data s) (dict_app (data_dict s) (data_dict (fst fresh))),
               snd fresh)).
  { unfold fresh, init. destruct s as [raw d]. cbn [raw_data data_dict].
    rewrite !build_data_dict_load. cbn [fst snd data_dict].
    rewrite push_rows_dict_app, push_rows_empty. reflexivity. }
  split; [exact H |].
  intros E. rewrite H. rewrite <- E. reflexivity.
Qed.

(** ** The lines that build_data_dict reads *)

Lemma data_lines_skip (h h' blank : string) (a b : list string) :
  strip blank = EmptyString ->
  data_lines (h :: a ++ blank :: b) = data_lines (h' :: a ++ b).
Proof.
  intros Hb. unfold data_lines. cbn [tl].
  rewrite !map_app, !filter_app. cbn [map filter]. rewrite Hb. reflexivity.
Qed.

(** X3. The first line is never parsed and a line of white space only is
    skipped: replacing the header and inserting such a line among the data
    lines changes neither the outcome of the load nor the table. *)
Theorem build_data_dict_skips_header_and_blank_lines
    {N : Number} (py_int : string -> option Z) (py_float : string -> option (num N))
    (h h' blank : string) (a b : list string) (d : DataDict N) :
  strip blank = EmptyString ->
  data_dict (fst (build_data_dict py_int py_float (mkPollReader (h :: a ++ blank :: b) d))) =
  data_dict (fst (build_data_dict py_int py_float (mkPollReader (h' :: a ++ b) d))) /\
  snd (build_data_dict py_int py_float (mkPollReader (h :: a ++ blank :: b) d)) =
  snd (build_data_dict py_int py_float (mkPollReader (h' :: a ++ b) d)).
Proof.
  intros Hb. rewrite !build_data_dict_load. cbn [fst snd data_dict].
  rewrite (data_lines_skip h h' blank a b Hb). split; reflexivity.
Qed.

(** X4. A file without data lines (no line at all, a header alone, or a
    header and blank lines) loads without an error into the empty table;
    on the object so loaded [highest_polling_candidate] raises
    [ValueError], [likely_voter_polling_average] returns (0, 0) and
    [polling_history_change] raises [ZeroDivisionError]. *)
Theorem build_data_dict_no_data_lines
    {N : Number} (py_int : string -> option Z) (py_float : string -> option (num N))
    (raw : list string) :
  data_lines raw = [] ->
  build_data_dict py_int py_float (init raw) = (init raw, Ok tt) /\
  snd (highest_polling_candidate (init (N := N) raw)) = Raise ValueError /\
  snd (likely_voter_polling_average (init (N := N) raw)) = Ok (of_int 0, of_int 0) /\
  snd (polling_history_change (init (N := N) raw)) = Raise ZeroDivisionError.
Proof.
  intros H. unfold init. rewrite build_data_dict_load, H.
  repeat split; reflexivity.
Qed.

(** ** The strings that build_data_dict stores *)

Lemma no_char_empty (p : ascii -> bool) : no_char p EmptyString.
Proof. intros c H. destruct H. Qed.

Lemma no_char_String (p : ascii -> bool) (c : ascii) (s : string) :
  no_char p (String c s) <-> p c = false /\ no_char p s.
Proof.
  unfold no_char. cbn [list_ascii_of_string In]. split.
  - intros H. split; [apply H; left; reflexivity | intros x Hx; apply H; right; exact Hx].
  - intros [Hc Hs] x [<- | Hx]; [exact Hc | apply Hs; exact Hx].
Qed.

Lemma no_char_lstrip (p : ascii -> bool) (s : string) :
  no_char p s -> no_char p (lstrip s).
Proof.
  induction s as [| c s IH]; cbn [lstrip]; intros H; [exact H |].
  destruct (is_space c); [| exact H].
  apply IH. apply no_char_String in H. apply H.
Qed.

Lemma no_char_rstrip (p : ascii -> bool) (s : string) :
  no_char p s -> no_char p (rstrip s).
Proof.
  induction s as [| c s IH]; cbn [rstrip]; intros H; [exact H |].
  apply no_char_String in H. destruct H as [Hc Hs]. specialize (IH Hs).
  destruct (rstrip s) as [| c' r].
  - destruct (is_space c); [apply no_char_empty |].
    apply no_char_String. split; [exact Hc | apply no_char_empty].
  - apply no_char_String. split; [exact Hc | exact IH].
Qed.

Lemma no_char_strip (p : ascii -> bool) (s : string) :
  no_char p s -> no_char p (strip s).
Proof. intros H. unfold strip. apply no_char_lstrip, no_char_rstrip, H. Qed.

(** No field of a split holds a separator. *)
Lemma split_where_no_sep (sep : ascii -> bool) (s : string) :
  Forall (no_char sep) (split_where sep s).
Proof.
  induction s as [| c s IH]; cbn [split_where].
  - constructor; [apply no_char_empty | constructor].
  - destruct (sep c) eqn:E.
    + constructor; [apply no_char_empty | exact IH].
    + destruct (split_where sep s) as [| w ws].
      * constructor; [| constructor].
        apply no_char_String. split; [exact E | apply no_char_empty].
      * inversion IH as [| ? ? Hw Hws]; subst.
        constructor; [| exact Hws].
        apply no_char_String. split; [exact E | exact Hw].
Qed.

(** A field of a split holds only characters of the string. *)
Lemma split_where_keeps (p sep : ascii -> bool) (s : string) :
  no_char p s -> Forall (no_char p) (split_where sep s).
Proof.
  induction s as [| c s IH]; cbn [split_where]; intros H.
  - constructor; [apply no_char_empty | constructor].
  - apply no_char_String in H. destruct H as [Hc Hs]. specialize (IH Hs).
    destruct (sep c).
    + constructor; [apply no_char_empty | exact IH].
    + destruct (split_where sep s) as [| w ws].
      * constructor; [| constructor].
        apply no_char_String. split; [exact Hc | apply no_char_empty].
      * inversion IH as [| ? ? Hw Hws]; subst.
        constructor; [| exact Hws].
        apply no_char_String. split; [exact Hc | exact Hw].
Qed.

Lemma fields_no_comma (line : string) : Forall (no_char is_comma) (fields line).
Proof.
  unfold fields, split_comma. apply Forall_map.
  pose proof (split_where_no_sep is_comma line) as H.
  rewrite Forall_forall in *. intros w Hw. apply no_char_strip. apply H. exact Hw.
Qed.

Lemma field_no_comma (i : nat) (line : string) : no_char is_comma (field i line).
Proof.
  unfold field. destruct (nth_in_or_default i (fields line) ""%string) as [Hin | ->].
  - pose proof (fields_no_comma line) as H. rewrite Forall_forall in H. apply H, Hin.
  - apply no_char_empty.
Qed.

Lemma last_in {A : Type} (l : list A) (d : A) : l <> [] -> In (last l d) l.
Proof.
  intros H. destruct (exists_last H) as [pre [x ->]].
  rewrite last_last. apply in_or_app. right. left. reflexivity.
Qed.

(** The sample type of a line with a token. *)
Lemma sample_type_of_token (line : string) :
  sample_tokens line <> [] ->
  sample_type_of line <> EmptyString /\
  no_char is_space (sample_type_of line) /\
  no_char is_comma (sample_type_of line).
Proof.
  intros Hne. unfold sample_type_of.
  pose proof (last_in (sample_tokens line) ""%string Hne) as Hin.
  set (st := last (sample_tokens line) ""%string) in *.
  unfold sample_tokens, split_ws in Hin. apply filter_In in Hin.
  destruct Hin as [Hin Hnonempty].
  split; [intros E; rewrite E in Hnonempty; discriminate |]. split.
  - pose proof (split_where_no_sep is_space (field 2 line)) as H.
    rewrite Forall_forall in H. apply H, Hin.
  - pose proof (split_where_keeps is_comma is_space (field 2 line)
                  (field_no_comma 2 line)) as H.
    rewrite Forall_forall in H. apply H, Hin.
Qed.

Section StoredStrings.

Context {N : Number}.
Variable py_int : string -> option Z.
Variable py_float : string -> option (num N).

Lemma parsed_row_strings (line : string) (r : Row N) :
  parse_line py_int py_float line = Ok r ->
  no_char is_comma (r_month r) /\
  r_sample_type r <> EmptyString /\
  no_char is_space (r_sample_type r) /\
  no_char is_comma (r_sample_type r).
Proof.
  intros H. pose proof (parse_line_spec py_int py_float line) as Hspec.
  rewrite H in Hspec. destruct Hspec as (Hwf & Em & _ & _ & Est & _ & _).
  rewrite Em, Est. split; [apply field_no_comma |].
  apply sample_type_of_token. intros E. apply Hwf.
  right. right. left. exact E.
Qed.

Lemma load_rows_strings (lines : list string) :
  Forall (fun r => no_char is_comma (r_month r) /\
                   r_sample_type r <> EmptyString /\
                   no_char is_space (r_sample_type r) /\
                   no_char is_comma (r_sample_type r))
         (fst (load_rows py_int py_float lines)).
Proof.
  induction lines as [| line rest IH]; cbn [load_rows].
  - constructor.
  - destruct (parse_line py_int py_float line) as [r | e] eqn:E; [| constructor].
    destruct (load_rows py_int py_float rest) as [rs o]. cbn [fst] in *.
    constructor; [exact (parsed_row_strings line r E) | exact IH].
Qed.

End StoredStrings.

(** X10. Whatever the file and whether the load returns or raises, every
    sample type that [build_data_dict] stores on a fresh object is a
    non-empty string without white space and without comma, and every
    month it stores is without comma. *)
Theorem build_data_dict_stored_strings
    {N : Number} (py_int : string -> option Z) (py_float : string -> option (num N)) (raw : list string) :
  let d := data_dict (fst (build_data_dict py_int py_float (init raw))) in
  Forall (fun st => st <> EmptyString /\ no_char is_space st /\ no_char is_comma st)
         (sample_type d) /\
  Forall (no_char is_comma) (month d).
Proof.
  unfold init. rewrite build_data_dict_load. cbn [fst data_dict].
  rewrite push_rows_empty. cbn [table_of_rows sample_type month].
  pose proof (load_rows_strings py_int py_float (data_lines raw)) as H.
  rewrite Forall_forall in H.
  split; apply Forall_map; apply Forall_forall; intros r Hr; apply (H r Hr).
Qed.

(** ** The format of a data line *)

Lemma split_where_app_sep (sep : ascii -> bool) (w : string) (c : ascii) (rest : string) :
  no_char sep w -> sep c = true ->
  split_where sep (w ++ String c rest) = w :: split_where sep rest.
Proof.
  intros Hw Hc. induction w as [| a w IH]; cbn [append split_where].
  - rewrite Hc. reflexivity.
  - apply no_char_String in Hw. destruct Hw as [Ha Hw].
    rewrite Ha, (IH Hw). reflexivity.
Qed.

Lemma split_where_whole (sep : ascii -> bool) (w : string) :
  no_char sep w -> split_where sep w = [w].
Proof.
  intros Hw. induction w as [| a w IH]; cbn [split_where]; [reflexivity |].
  apply no_char_String in Hw. destruct Hw as [Ha Hw].
  rewrite Ha, (IH Hw). reflexivity.
Qed.

Lemma split_comma_five (f0 f1 f2 f3 f4 : string) :
  no_char is_comma f0 -> no_char is_comma f1 -> no_char is_comma f2 ->
  no_char is_comma f3 -> no_char is_comma f4 ->
  split_comma (f0 ++ "," ++ f1 ++ "," ++ f2 ++ "," ++ f3 ++ "," ++ f4) =
  [f0; f1; f2; f3; f4].
Proof.
  intros H0 H1 H2 H3 H4. unfold split_comma.
  change (fun c : ascii => Ascii.eqb c ",") with is_comma.
  cbn [append].
  rewrite 4 split_where_app_sep by (assumption || reflexivity).
  rewrite split_where_whole by assumption. reflexivity.
Qed.

(** X11. A line [f0,f1,f2,f3,f4] of five fields without comma, when the
    conversions succeed, makes the loop body append the stripped [f0] as
    month, [int] of the stripped [f1] as date, [int] of the first token of
    [f2] as sample size, the last token of [f2] as sample type (the only
    token when there is one), and [float] of the stripped [f3] and [f4] as
    results: white space around a field does not matter. *)
Theorem process_line_of_fields
    {N : Number} (py_int : string -> option Z) (py_float : string -> option (num N))
    (f0 f1 f2 f3 f4 b0 : string) (bs : list string) (d n : Z) (h t : num N) (s : PollReader N) :
  no_char is_comma f0 -> no_char is_comma f1 -> no_char is_comma f2 ->
  no_char is_comma f3 -> no_char is_comma f4 ->
  py_int (strip f1) = Some d ->
  split_ws (strip f2) = b0 :: bs ->
  py_int b0 = Some n ->
  py_float (strip f3) = Some h ->
  py_float (strip f4) = Some t ->
  process_line py_int py_float
    (f0 ++ "," ++ f1 ++ "," ++ f2 ++ "," ++ f3 ++ "," ++ f4) s =
  (mkPollReader (raw_data s)
     (push_row (mkRow (strip f0) d n (last (b0 :: bs) b0) h t) (data_dict s)),
   Ok tt).
Proof.
  intros H0 H1 H2 H3 H4 Hd Hb Hn Hh Ht.
  rewrite process_line_parse. unfold parse_line, fields.
  rewrite (split_comma_five f0 f1 f2 f3 f4 H0 H1 H2 H3 H4). cbn [map].
  rewrite (py_index_nth _ 0 0 eq_refl), (py_index_nth _ 1 1 eq_refl),
          (py_index_nth _ 2 2 eq_refl), (py_index_nth _ 3 3 eq_refl),
          (py_index_nth _ 4 4 eq_refl).
  cbn [nth_error rbind]. unfold int, float. rewrite Hd. cbn [rbind].
  rewrite Hb. rewrite (py_index_nth (b0 :: bs) 0 0 eq_refl). cbn [nth_error rbind].
  rewrite Hn. cbn [rbind].
  rewrite (py_index_last (b0 :: bs) b0) by discriminate. cbn [rbind].
  rewrite Hh. cbn [rbind]. rewrite Ht. cbn [rbind].
  reflexivity.
Qed.

(** ** Files that load *)

(** X13. A file loads without an exception exactly when none of its data
    lines is malformed, that is when each has at least five fields, a
    token in the sample field, and a date, sample size and two results
    that convert. *)
Theorem build_data_dict_succeeds_iff
    {N : Number} (py_int : string -> option Z) (py_float : string -> option (num N)) (raw : list string) :
  snd (build_data_dict py_int py_float (init raw)) = Ok tt <->
  Forall (fun line => ~ malformed py_int py_float line) (data_lines raw).
Proof.
  unfold init. rewrite build_data_dict_load. cbn [snd].
  destruct (load_rows py_int py_float (data_lines raw)) as [rs [[] | e]] eqn:E; cbn [snd].
  - split; [intros _ | reflexivity].
    apply (parsed_rows_hold py_int py_float _ _ (load_rows_ok py_int py_float _ _ E)).
  - split; [discriminate |]. intros Hall. exfalso.
    destruct (load_rows_raise py_int py_float _ _ _ E) as [pre [bad [post [Hl [_ Hraise]]]]].
    pose proof (parse_line_spec py_int py_float bad) as Hspec. rewrite Hraise in Hspec.
    rewrite Forall_forall in Hall. apply (Hall bad); [| apply Hspec].
    rewrite Hl. apply in_or_app. right. left. reflexivity.
Qed.

(** ** [:.1f] writes one string *)

Lemma numeral_unique (z : Z) (s s' : string) : numeral z s -> numeral z s' -> s = s'.
Proof.
  intros [u [Hs [Hu Hz]]] [u' [Hs' [Hu' Hz']]].
  assert (E : u = u').
  { rewrite <- Hu, <- Hu'. rewrite <- !DecimalN.Unsigned.to_of.
    f_equal. apply N2Z.inj. congruence. }
  subst u'. rewrite <- (NilZero.sus _ _ Hs), <- (NilZero.sus _ _ Hs'). reflexivity.
Qed.

Lemma nearest_tenths_unique (x : Q) (t t' : Z) :
  nearest_tenths x t -> nearest_tenths x t' -> t = t'.
Proof.
  intros [_ [Hn He]] [_ [Hn' He']].
  apply Qabs_Qle_condition in Hn. apply Qabs_Qle_condition in Hn'.
  assert (Hd : (inject_Z t - inject_Z t' <= 1 /\ inject_Z t' - inject_Z t <= 1)%Q)
    by (split; lra).
  destruct Hd as [Hd1 Hd2].
  assert (Hz : t - t' <= 1 /\ t' - t <= 1).
  { split.
    - rewrite Zle_Qle. unfold Z.sub. rewrite inject_Z_plus, inject_Z_opp.
      change (inject_Z 1) with 1%Q. unfold Qminus in Hd1. exact Hd1.
    - rewrite Zle_Qle. unfold Z.sub. rewrite inject_Z_plus, inject_Z_opp.
      change (inject_Z 1) with 1%Q. unfold Qminus in Hd2. exact Hd2. }
  destruct (Z.eq_dec t t') as [E | NE]; [exact E | exfalso].
  assert (C : t' = t + 1 \/ t = t' + 1) by lia.
  destruct C as [C | C]; subst.
  - rewrite inject_Z_plus in *. change (inject_Z 1) with 1%Q in *.
    assert (E1 : (Qabs (x * 10 - inject_Z t) == 1 # 2)%Q).
    { rewrite Qabs_pos by lra. lra. }
    assert (E2 : (Qabs (x * 10 - (inject_Z t + 1)) == 1 # 2)%Q).
    { rewrite Qabs_neg by lra. lra. }
    specialize (He E1). specialize (He' E2).
    rewrite Z.even_add in He'. rewrite He in He'. discriminate He'.
  - rewrite inject_Z_plus in *. change (inject_Z 1) with 1%Q in *.
    assert (E1 : (Qabs (x * 10 - inject_Z t') == 1 # 2)%Q).
    { rewrite Qabs_pos by lra. lra. }
    assert (E2 : (Qabs (x * 10 - (inject_Z t' + 1)) == 1 # 2)%Q).
    { rewrite Qabs_neg by lra. lra. }
    specialize (He E2). specialize (He' E1).
    rewrite Z.even_add in He. rewrite He' in He. discriminate He.
Qed.

Lemma writes_tenths_unique (x : Q) (s s' : string) :
  writes_tenths x s -> writes_tenths x s' -> s = s'.
Proof.
  intros [t [ip [d [Ht [Hip [Hd ->]]]]]] [t' [ip' [d' [Ht' [Hip' [Hd' ->]]]]]].
  pose proof (nearest_tenths_unique x t t' Ht Ht') as E. subst t'.
  rewrite (numeral_unique _ _ _ Hip Hip').
  pose proof (numeral_unique _ _ _ Hd Hd') as Ed. injection Ed as ->. reflexivity.
Qed.

(** The specification of [:.1f] determines the string. *)
Lemma writes_1f_unique (x : PrimFloat.float) (s s' : string) :
  writes_1f x s -> writes_1f x s' -> s = s'.
Proof.
  unfold writes_1f. destruct (Prim2SF x) as [sg | sg | | sg m e]; try congruence.
  intros [b [Hb ->]] [b' [Hb' ->]].
  rewrite (writes_tenths_unique _ _ _ Hb Hb'). reflexivity.
Qed.

Lemma writes_1f_is (x : PrimFloat.float) (s : string) :
  writes_1f x s -> s = float_fmt_1f x.
Proof.
  intros H. apply (writes_1f_unique x); [exact H | apply float_fmt_1f_writes].
Qed.

(** ** The functions on the worked inputs *)

Lemma small_file_loads :
  build_data_dict dec_int dec_float (init small_file) = (small_loaded, Ok tt).
Proof. reflexivity. Defined.

Example bad_date_raises_ValueError :
  build_data_dict dec_int dec_float (init file_with_bad_date) =
  (init file_with_bad_date, Raise ValueError).
Proof. reflexivity. Qed.

Example file_with_nan_loads :
  build_data_dict dec_int dec_float (init file_with_nan) =
  (mkPollReader file_with_nan (data_dict nan_rows), Ok tt).
Proof. reflexivity. Qed.

Example file_with_zeros_loads :
  build_data_dict dec_int dec_float (init file_with_zeros) =
  (mkPollReader file_with_zeros (data_dict zero_rows), Ok tt) /\
  build_data_dict dec_int dec_float (init file_with_zeros_exchanged) =
  (mkPollReader file_with_zeros_exchanged (table_of_rows zero_rows_exchanged), Ok tt).
Proof. split; reflexivity. Qed.

Example four_rows_highest :
  snd (highest_polling_candidate four_rows) = Ok "Harris 57.0%"%string.
Proof. reflexivity. Qed.

Example four_rows_likely_voters :
  snd (likely_voter_polling_average four_rows) =
  Ok (0.47999999999999998%float, 0.45000000000000001%float).
Proof. reflexivity. Qed.

Example four_rows_history :
  snd (polling_history_change four_rows) =
  Ok (0.070000000000000062%float, 0.025000000000000022%float).
Proof. reflexivity. Qed.

Example tie_is_even :
  snd (highest_polling_candidate
         (mkPollReader []
            (mkDataDict (N := binary64) ["a"; "b"]%string [1; 2] [10; 20] ["LV"; "A"]%string
                        [0.4; 0.485]%float [0.485; 0.3]%float))) =
  Ok "EVEN 48.5%"%string.
Proof. reflexivity. Qed.

Example lower_case_lv_is_not_selected :
  lv_indices (sample_type (data_dict four_rows)) = [0; 3].
Proof. reflexivity. Qed.

(** The float nearest to 0.0015 times 100 is below 0.15, the float nearest
    to 0.4545 times 100 is above 45.45, and 0.25 and 0.35 are not ties. *)
Example float_fmt_1f_samples :
  float_fmt_1f (0.0015 * 100)%float = "0.1"%string /\
  float_fmt_1f (0.4545 * 100)%float = "45.5"%string /\
  float_fmt_1f (0.57 * 100)%float = "57.0"%string /\
  float_fmt_1f 0.25%float = "0.2"%string /\
  float_fmt_1f 0.35%float = "0.3"%string /\
  float_fmt_1f 12.349%float = "12.3"%string /\
  float_fmt_1f (-0.04)%float = "-0.0"%string /\
  float_fmt_1f (0 * 100)%float = "0.0"%string /\
  float_fmt_1f (PrimFloat.infinity * 100)%float = "inf"%string.
Proof. repeat split; reflexivity. Qed.

(** A result so large that its product with 100 is infinite. *)
Example huge_result_is_inf :
  snd (highest_polling_candidate
         (mkPollReader []
            (mkDataDict (N := binary64) ["a"]%string [1] [10] ["LV"]%string
                        [1e308]%float [0.4]%float))) =
  Ok "Harris inf%"%string.
Proof. reflexivity. Qed.

(** The mean of 0.1, 0.2 and 0.3 in binary64: the additions round. *)
Example mean_of_rounds :
  mean_of (N := binary64) [0.1; 0.2; 0.3]%float = 0.20000000000000004%float.
Proof. reflexivity. Qed.

(** ** Where the code departs from the specification *)

(** C2 (counterexample). A line of six fields loads without an error; and
    a line of one field, after a well-formed line, raises [IndexError],
    not [ParseError], and leaves the row of the well-formed line in the
    table. *)
Lemma build_data_dict_not_all_or_nothing :
  ((exists line, In line (data_lines file_with_long_line) /\
                 List.length (fields line) <> 5%nat) /\
   snd (build_data_dict dec_int dec_float (init file_with_long_line)) = Ok tt) /\
  ((exists line, In line (data_lines file_with_short_line) /\
                 List.length (fields line) <> 5%nat) /\
   snd (build_data_dict dec_int dec_float (init file_with_short_line)) = Raise IndexError /\
   snd (build_data_dict dec_int dec_float (init file_with_short_line)) <> Raise ParseError /\
   data_dict (fst (build_data_dict dec_int dec_float (init file_with_short_line))) =
   mkDataDict (N := binary64) ["October"]%string [28] [1880] ["LV"]%string
              [0.49]%float [0.46]%float).
Proof.
  split; [split | split; [| split; [| split]]].
  - exists "October,28,1880 LV,0.49,0.46,extra"%string.
    split; [left; reflexivity | cbn; discriminate].
  - reflexivity.
  - exists "garbage"%string.
    split; [right; left; reflexivity | cbn; discriminate].
  - reflexivity.
  - vm_compute. discriminate.
  - reflexivity.
Qed.

(** C3 (counterexample). On a table of one row the history change raises
    the bare [ZeroDivisionError], not [InsufficientDataError]. *)
Lemma polling_history_change_one_row :
  (row_count (data_dict one_row) <= 1)%nat /\
  snd (polling_history_change one_row) = Raise ZeroDivisionError /\
  snd (polling_history_change one_row) <> Raise InsufficientDataError.
Proof.
  split; [apply le_n |]. split; [reflexivity | discriminate].
Qed.

(** C6 (counterexample). On the empty table the query raises the
    [ValueError] of [max], not [EmptyDataError]. *)
Lemma highest_polling_candidate_no_rows :
  row_count (data_dict (init (N := binary64) [])) = 0%nat /\
  snd (highest_polling_candidate (init (N := binary64) [])) = Raise ValueError /\
  snd (highest_polling_candidate (init (N := binary64) [])) <> Raise EmptyDataError.
Proof.
  split; [reflexivity |]. split; [reflexivity | discriminate].
Qed.

(** C4 (counterexample). The table that [file_with_nan] loads into has the
    Harris results NaN and 0.5 and the Trump results 0.4 and 0.4: the
    Harris result 0.5 exceeds every Trump result, but [max] returns the
    NaN, which 0.5 does not compare below, and the query answers
    "EVEN nan%", not "Harris 50.0%", although the two values it takes as
    maxima are not equal. *)
Lemma highest_polling_candidate_nan :
  data_dict (fst (build_data_dict dec_int dec_float (init file_with_nan))) =
  data_dict nan_rows /\
  aligned (data_dict nan_rows) /\
  In 0.5%float (Harris_result (data_dict nan_rows)) /\
  Forall (fun x => PrimFloat.ltb x 0.5 = true) (Trump_result (data_dict nan_rows)) /\
  py_max (N := binary64) (Harris_result (data_dict nan_rows)) = Ok PrimFloat.nan /\
  PrimFloat.leb 0.5 PrimFloat.nan = false /\
  py_max (N := binary64) (Trump_result (data_dict nan_rows)) = Ok 0.4%float /\
  PrimFloat.eqb PrimFloat.nan 0.4 = false /\
  snd (highest_polling_candidate nan_rows) = Ok "EVEN nan%"%string /\
  snd (highest_polling_candidate nan_rows) <> Ok "Harris 50.0%"%string.
Proof.
  split; [reflexivity |].
  split; [unfold aligned; repeat split; reflexivity |].
  split; [right; left; reflexivity |].
  split; [repeat constructor |].
  split; [reflexivity |].
  split; [reflexivity |].
  split; [reflexivity |].
  split; [reflexivity |].
  split; [reflexivity |].
  vm_compute. discriminate.
Qed.

(** C10 (counterexample). The tables that [file_with_zeros] and the same
    file with its two data lines exchanged load into have the same rows in
    two orders; on the first the query answers "EVEN -0.0%" and on the
    second "EVEN 0.0%". *)
Lemma highest_polling_candidate_zero_order :
  data_dict (fst (build_data_dict dec_int dec_float (init file_with_zeros))) =
  data_dict zero_rows /\
  data_dict (fst (build_data_dict dec_int dec_float (init file_with_zeros_exchanged))) =
  table_of_rows zero_rows_exchanged /\
  aligned (data_dict zero_rows) /\
  row_count (data_dict zero_rows) <> 0%nat /\
  Permutation (rows_of (data_dict zero_rows)) zero_rows_exchanged /\
  snd (highest_polling_candidate zero_rows) = Ok "EVEN -0.0%"%string /\
  snd (highest_polling_candidate
         (mkPollReader (raw_data zero_rows) (table_of_rows zero_rows_exchanged))) =
  Ok "EVEN 0.0%"%string /\
  snd (highest_polling_candidate
         (mkPollReader (raw_data zero_rows) (table_of_rows zero_rows_exchanged))) <>
  snd (highest_polling_candidate zero_rows).
Proof.
  split; [reflexivity |].
  split; [reflexivity |].
  split; [unfold aligned; repeat split; reflexivity |].
  split; [discriminate |].
  split; [apply perm_swap |].
  split; [reflexivity |].
  split; [reflexivity |].
  vm_compute. discriminate.
Qed.

(** ** The theorems at the worked inputs *)

Lemma four_rows_aligned : aligned (data_dict four_rows).
Proof. unfold aligned. repeat split; reflexivity. Defined.

Lemma constant_rows_aligned : aligned (data_dict constant_rows).
Proof. unfold aligned. repeat split; reflexivity. Defined.

Lemma polling_history_change_window_selection_witness :
  aligned (data_dict four_rows) /\
  polling_history_change four_rows =
  (four_rows, Ok (0.070000000000000062%float, 0.025000000000000022%float)).
Proof.
  split; [exact four_rows_aligned |].
  destruct (polling_history_change_window_selection four_rows four_rows_aligned)
    as (_ & _ & _ & _ & _ & _ & _ & _ & Hres).
  rewrite Hres by (cbn; repeat constructor).
  reflexivity.
Defined.

Lemma polling_history_change_short_table_witness :
  (row_count (data_dict one_row) <= 1)%nat /\
  polling_history_change one_row = (one_row, Raise ZeroDivisionError).
Proof.
  split; [apply le_n |].
  apply polling_history_change_short_table. apply le_n.
Defined.

Lemma highest_polling_candidate_empty_witness :
  Harris_result (data_dict (init (N := binary64) [])) = [] /\
  highest_polling_candidate (init (N := binary64) []) = (init [], Raise ValueError).
Proof.
  split; [reflexivity |].
  apply highest_polling_candidate_empty. reflexivity.
Defined.

Lemma four_rows_maxima :
  is_max 0.57%float (Harris_result (data_dict four_rows)) /\
  is_max 0.5%float (Trump_result (data_dict four_rows)).
Proof.
  split; (split; [right; left; reflexivity | repeat constructor]).
Defined.

Lemma highest_polling_candidate_result_witness :
  aligned (data_dict four_rows) /\
  row_count (data_dict four_rows) <> 0%nat /\
  Forall not_nan (Harris_result (data_dict four_rows)) /\
  Forall not_nan (Trump_result (data_dict four_rows)) /\
  highest_polling_candidate four_rows = (four_rows, Ok "Harris 57.0%"%string).
Proof.
  assert (Hn : row_count (data_dict four_rows) <> 0%nat) by discriminate.
  assert (Nh : Forall not_nan (Harris_result (data_dict four_rows))) by no_nan.
  assert (Nt : Forall not_nan (Trump_result (data_dict four_rows))) by no_nan.
  assert (Zh : Forall not_neg_zero (Harris_result (data_dict four_rows))) by no_neg_zero.
  assert (Zt : Forall not_neg_zero (Trump_result (data_dict four_rows))) by no_neg_zero.
  split; [exact four_rows_aligned |]. split; [exact Hn |].
  split; [exact Nh |]. split; [exact Nt |].
  destruct (highest_polling_candidate_result four_rows four_rows_aligned Hn Nh Nt)
    as (h_max & t_max & h_pct & t_pct & Mh & Mt & Wh & _ & Hharris & _ & _).
  destruct four_rows_maxima as [Mh' Mt'].
  pose proof (is_max_unique _ _ _ Zh Mh Mh') as Eh.
  pose proof (is_max_unique _ _ _ Zt Mt Mt') as Et.
  subst h_max t_max.
  rewrite (writes_1f_is _ _ Wh) in Hharris.
  rewrite Hharris by reflexivity.
  reflexivity.
Defined.

Lemma polling_history_change_constant_witness :
  aligned (data_dict constant_rows) /\
  (2 <= row_count (data_dict constant_rows))%nat /\
  Forall (fun x => x == 0.5)%Q (Harris_result (data_dict constant_rows)) /\
  Forall (fun x => x == 0.25)%Q (Trump_result (data_dict constant_rows)) /\
  exists dh dt : Q,
    polling_history_change constant_rows = (constant_rows, Ok (dh, dt)) /\
    (dh == 0)%Q /\ (dt == 0)%Q.
Proof.
  assert (Hn : (2 <= row_count (data_dict constant_rows))%nat) by (cbn; repeat constructor).
  assert (Hh : Forall (fun x => x == 0.5)%Q (Harris_result (data_dict constant_rows)))
    by (repeat constructor).
  assert (Ht : Forall (fun x => x == 0.25)%Q (Trump_result (data_dict constant_rows)))
    by (repeat constructor).
  split; [exact constant_rows_aligned |]. split; [exact Hn |].
  split; [exact Hh |]. split; [exact Ht |].
  exact (polling_history_change_constant constant_rows 0.5 0.25
           constant_rows_aligned Hn Hh Ht).
Defined.

Lemma highest_polling_candidate_permutation_witness :
  aligned (data_dict four_rows) /\
  row_count (data_dict four_rows) <> 0%nat /\
  Permutation (rows_of (data_dict four_rows)) four_rows_permuted /\
  snd (highest_polling_candidate
         (mkPollReader (raw_data four_rows) (table_of_rows four_rows_permuted))) =
  snd (highest_polling_candidate four_rows).
Proof.
  assert (HP : Permutation (rows_of (data_dict four_rows)) four_rows_permuted).
  { cbv [rows_of four_rows data_dict row_count Harris_result Trump_result month date
           sample sample_type List.length seq map nth four_rows_permuted].
    apply (Permutation_cons_app [_] [_; _]). cbn [app].
    apply (Permutation_cons_app [_; _] []). cbn [app].
    apply perm_swap. }
  split; [exact four_rows_aligned |]. split; [discriminate |]. split; [exact HP |].
  apply highest_polling_candidate_permutation;
    [exact four_rows_aligned | discriminate | no_nan | no_nan
     | no_neg_zero | no_neg_zero | exact HP].
Defined.

Lemma build_data_dict_columns_witness :
  build_data_dict dec_int dec_float (init small_file) = (small_loaded, Ok tt) /\
  aligned (data_dict small_loaded) /\
  row_count (data_dict small_loaded) = List.length (data_lines small_file) /\
  holds_lines dec_int dec_float (data_dict small_loaded) (data_lines small_file).
Proof.
  split; [exact small_file_loads |].
  exact (build_data_dict_columns dec_int dec_float small_file small_loaded small_file_loads).
Defined.

Lemma build_data_dict_first_malformed_line_witness :
  (exists line, In line (data_lines file_with_short_line) /\
                malformed dec_int dec_float line) /\
  exists (pre : list string) (bad : string) (post : list string) (e : exn)
         (d : DataDict binary64),
    data_lines file_with_short_line = pre ++ bad :: post /\
    Forall (fun line => ~ malformed dec_int dec_float line) pre /\
    malformed dec_int dec_float bad /\
    (e = IndexError \/ e = ValueError) /\
    build_data_dict dec_int dec_float (init file_with_short_line) =
    (mkPollReader file_with_short_line d, Raise e) /\
    aligned d /\
    row_count d = List.length pre /\
    holds_lines dec_int dec_float d pre.
Proof.
  assert (H : exists line, In line (data_lines file_with_short_line) /\
                           malformed dec_int dec_float line).
  { exists "garbage"%string. split; [right; left; reflexivity |].
    left. cbn. repeat constructor. }
  split; [exact H |].
  exact (build_data_dict_first_malformed_line dec_int dec_float file_with_short_line H).
Defined.

(** ** The further theorems at the worked inputs *)

Lemma likely_voter_polling_average_selection_witness :
  aligned (data_dict four_rows) /\
  likely_voter_polling_average four_rows =
  (four_rows, Ok (0.47999999999999998%float, 0.45000000000000001%float)).
Proof.
  split; [exact four_rows_aligned |].
  destruct (likely_voter_polling_average_selection four_rows four_rows_aligned)
    as (_ & Hres & _).
  rewrite Hres. reflexivity.
Defined.

Lemma likely_voter_polling_average_lv_rows_only_witness :
  snd (likely_voter_polling_average (mkPollReader [] (table_of_rows three_rows))) =
  Ok (0.15000000000000002%float, 0.44999999999999996%float).
Proof.
  destruct (likely_voter_polling_average_lv_rows_only [] [] three_rows) as [Hres _].
  rewrite Hres. reflexivity.
Defined.

Lemma polling_history_change_reads_ends_witness :
  Harris_result (data_dict five_rows) = ([0.49; 0.57] ++ [0.3] ++ [0.45; 0.47])%float /\
  Trump_result (data_dict five_rows) = ([0.46; 0.5] ++ [0.6] ++ [0.47; 0.44])%float /\
  polling_history_change five_rows =
  (five_rows, Ok (0.070000000000000062%float, 0.025000000000000022%float)).
Proof.
  split; [reflexivity |]. split; [reflexivity |].
  rewrite (polling_history_change_reads_ends five_rows
             [0.49; 0.57]%float [0.3]%float [0.45; 0.47]%float
             [0.46; 0.5]%float [0.6]%float [0.47; 0.44]%float);
    try reflexivity; try discriminate.
Defined.

Lemma highest_polling_candidate_overall_max_witness :
  Harris_result (data_dict four_rows) <> [] /\
  Trump_result (data_dict four_rows) <> [] /\
  Forall not_nan (Harris_result (data_dict four_rows)) /\
  Forall not_nan (Trump_result (data_dict four_rows)) /\
  exists (label pct : string) (m : PrimFloat.float),
    highest_polling_candidate four_rows = (four_rows, Ok (label ++ pct ++ "%")%string) /\
    pct = float_fmt_1f (m * 100)%float /\
    is_max m (Harris_result (data_dict four_rows) ++ Trump_result (data_dict four_rows)).
Proof.
  assert (Nh : Forall not_nan (Harris_result (data_dict four_rows))) by no_nan.
  assert (Nt : Forall not_nan (Trump_result (data_dict four_rows))) by no_nan.
  split; [discriminate |]. split; [discriminate |].
  split; [exact Nh |]. split; [exact Nt |].
  destruct (highest_polling_candidate_overall_max four_rows
              ltac:(discriminate) ltac:(discriminate) Nh Nt)
    as [label [pct [m [Hres [Hw [Hmax _]]]]]].
  exists label, pct, m. split; [exact Hres |]. split; [| exact Hmax].
  apply writes_1f_is. exact Hw.
Defined.

Lemma likely_voter_polling_average_short_column_witness :
  In 1 (lv_indices (sample_type (data_dict short_results))) /\
  len (Harris_result (data_dict short_results)) <= 1 /\
  likely_voter_polling_average short_results = (short_results, Raise IndexError).
Proof.
  split; [left; reflexivity |]. split; [discriminate |].
  apply (likely_voter_polling_average_short_column short_results 1).
  - left. reflexivity.
  - left. discriminate.
Defined.

Lemma build_data_dict_keeps_alignment_witness :
  aligned (data_dict four_rows_and_short_file) /\
  snd (build_data_dict dec_int dec_float four_rows_and_short_file) = Raise IndexError /\
  exists added : DataDict binary64,
    aligned added /\
    data_dict (fst (build_data_dict dec_int dec_float four_rows_and_short_file)) =
    dict_app (data_dict four_rows_and_short_file) added /\
    aligned (data_dict (fst (build_data_dict dec_int dec_float four_rows_and_short_file))) /\
    row_count (data_dict (fst (build_data_dict dec_int dec_float four_rows_and_short_file))) =
    (row_count (data_dict four_rows_and_short_file) + row_count added)%nat /\
    raw_data (fst (build_data_dict dec_int dec_float four_rows_and_short_file)) =
    raw_data four_rows_and_short_file.
Proof.
  split; [exact four_rows_aligned |]. split; [reflexivity |].
  exact (build_data_dict_keeps_alignment dec_int dec_float four_rows_and_short_file
           four_rows_aligned).
Defined.

Lemma build_data_dict_skips_header_and_blank_lines_witness :
  strip ("   " ++ nl) = EmptyString /\
  data_dict (fst (build_data_dict dec_int dec_float
                    (mkPollReader (header :: [example_line] ++ ("   " ++ nl)%string :: [])
                                  empty_dict))) =
  data_dict (fst (build_data_dict dec_int dec_float
                    (mkPollReader (example_line :: [example_line] ++ []) empty_dict))) /\
  snd (build_data_dict dec_int dec_float
         (mkPollReader (header :: [example_line] ++ ("   " ++ nl)%string :: []) empty_dict)) =
  snd (build_data_dict dec_int dec_float
         (mkPollReader (example_line :: [example_line] ++ []) empty_dict)).
Proof.
  split; [reflexivity |].
  apply build_data_dict_skips_header_and_blank_lines. reflexivity.
Defined.

Lemma build_data_dict_no_data_lines_witness :
  data_lines [header; nl] = [] /\
  build_data_dict dec_int dec_float (init [header; nl]) = (init [header; nl], Ok tt) /\
  snd (highest_polling_candidate (init (N := binary64) [header; nl])) = Raise ValueError /\
  snd (likely_voter_polling_average (init (N := binary64) [header; nl])) =
  Ok (0%float, 0%float) /\
  snd (polling_history_change (init (N := binary64) [header; nl])) = Raise ZeroDivisionError.
Proof.
  split; [reflexivity |].
  apply (build_data_dict_no_data_lines dec_int dec_float). reflexivity.
Defined.

Lemma no_char_decide (p : ascii -> bool) (s : string) :
  forallb (fun c => negb (p c)) (list_ascii_of_string s) = true -> no_char p s.
Proof.
  intros H c Hc. rewrite forallb_forall in H.
  apply negb_true_iff. apply H. exact Hc.
Defined.

Lemma process_line_of_fields_witness :
  process_line dec_int dec_float example_line (init []) =
  (mkPollReader []
     (mkDataDict (N := binary64) ["October"]%string [28] [1880] ["LV"]%string
                 [0.49]%float [0.46]%float),
   Ok tt).
Proof.
  apply (process_line_of_fields (N := binary64) dec_int dec_float
           "October" " 28 " "1880 LV" "0.49" "0.46" "1880" ["LV"%string] 28 1880
           0.49%float 0.46%float (init []));
    try (apply no_char_decide; reflexivity); reflexivity.
Defined.

Lemma build_data_dict_succeeds_iff_witness :
  Forall (fun line => ~ malformed dec_int dec_float line) (data_lines small_file) /\
  snd (build_data_dict dec_int dec_float (init small_file)) = Ok tt.
Proof.
  assert (H : snd (build_data_dict dec_int dec_float (init small_file)) = Ok tt)
    by (rewrite small_file_loads; reflexivity).
  split; [| exact H].
  apply (build_data_dict_succeeds_iff dec_int dec_float small_file). exact H.
Defined.
